(** * Mensageiro: the Slack reporting bots

    A shallow embedding of the three scripts of the repository

    - [bot_monitoramento.py]  (jobs NOVO / REFIN / PORTABILITY, every 30/40/50 minutes),
    - [bot_resumo_diario.py]  (job RESUMO, twice a day),
    - [bot_superset_slack.py] (one-shot Superset chart report),

    followed by the properties of the job-execution engine they share.

    Effects are explicit: every function that talks to the outside (socket,
    database, HTTP, clock, stdout) runs in the monad [M], which records the
    trace of external events and ends in a value, a raised exception, or
    [Blocked] when the only loop of the code, the [while True] of
    [wait_for_vpn_and_db], has not left within the iterations it was given. *)

From Stdlib Require Import ZArith List String Ascii Bool Lia.
From Stdlib Require Import Floats.SpecFloat.
From Stdlib Require Import DecimalString.
Import ListNotations.

Open Scope string_scope.
Open Scope Z_scope.

(* ------------------------------------------------------------------ *)
(** ** Python values and exceptions *)

(** The exceptions the calls of the scripts raise.  All of them are
    subclasses of [Exception]; the handlers of the code select on
    [OSError] ([wait_for_vpn_and_db]) and [SlackApiError] ([enviar_slack]). *)
Inductive exn : Type :=
| OSError (msg : string)
| SlackApiError (error : string)
| TypeError (msg : string)
| ValueError (msg : string)
| OverflowError (msg : string)
| KeyError (key : string)
| OtherException (msg : string).

Definition is_OSError (e : exn) : bool :=
  match e with OSError _ => true | _ => false end.

Definition is_SlackApiError (e : exn) : bool :=
  match e with SlackApiError _ => true | _ => false end.

(** [except Exception]: every member of [exn] is an [Exception]. *)
Definition is_Exception (e : exn) : bool := true.

(** A Python [float] is an IEEE-754 binary64 value. *)
Definition pyfloat : Type := spec_float.

(** The value of a numeric cell of a DataFrame row, or any argument handed
    to the formatters.  [PyObject] stands for every other object (Decimal,
    str, list, ...), described by what [float()], [int()] and [bool()]
    make of it. *)
Inductive pyvalue : Type :=
| PyNone
| PyFloat (v : pyfloat)
| PyInt (z : Z)
| PyObject (as_float : exn + pyfloat) (as_int : exn + Z) (truthy : bool).

(** [value is None] *)
Definition is_None (value : pyvalue) : bool :=
  match value with PyNone => true | _ => false end.

(** [float(value)]: the nearest binary64 for an int, [OverflowError] when
    it is out of range. *)
Definition py_float (value : pyvalue) : exn + pyfloat :=
  match value with
  | PyNone => inl (TypeError "float() argument must be a string or a real number, not 'NoneType'")
  | PyFloat v => inr v
  | PyInt z =>
      match binary_normalize 53 1024 z 0 false with
      | S754_infinity _ => inl (OverflowError "int too large to convert to float")
      | v => inr v
      end
  | PyObject as_float _ _ => as_float
  end.

(** [int(value)]: truncation toward zero for a float. *)
Definition py_int (value : pyvalue) : exn + Z :=
  match value with
  | PyNone => inl (TypeError "int() argument must be a string, a bytes-like object or a real number, not 'NoneType'")
  | PyFloat S754_nan => inl (ValueError "cannot convert float NaN to integer")
  | PyFloat (S754_infinity _) => inl (OverflowError "cannot convert float infinity to integer")
  | PyFloat (S754_zero _) => inr 0
  | PyFloat (S754_finite s m e) =>
      let a := if 0 <=? e then Zpos m * 2 ^ e else Zpos m / 2 ^ (- e) in
      inr (if s then - a else a)
  | PyInt z => inr z
  | PyObject _ as_int _ => as_int
  end.

(** [bool(value)], as used by [value or 0]. *)
Definition py_truthy (value : pyvalue) : bool :=
  match value with
  | PyNone => false
  | PyFloat (S754_zero _) => false
  | PyFloat _ => true
  | PyInt z => negb (z =? 0)
  | PyObject _ _ truthy => truthy
  end.

(* ------------------------------------------------------------------ *)
(** ** String helpers: decimal digits, [str.replace], format specs *)

(** Decimal digits of a natural number, most significant first ("0" for 0). *)
Definition digits_of (n : Z) : list ascii :=
  list_ascii_of_string (NilZero.string_of_uint (N.to_uint (Z.to_N n))).

(** [str(z)] for an int. *)
Definition str_of_int (z : Z) : string :=
  if z <? 0 then String "-" (string_of_list_ascii (digits_of (- z)))
  else string_of_list_ascii (digits_of z).

(** The [,] option of a format spec: a comma before every group of three
    digits, counted from the right. *)
Fixpoint group_thousands (ds : list ascii) : list ascii :=
  match ds with
  | [] => []
  | d :: tl =>
      d :: (if (negb (List.length tl =? 0)%nat && (List.length tl mod 3 =? 0)%nat)%bool
            then ","%char :: group_thousands tl
            else group_thousands tl)
  end.

(** [num / den] rounded to the nearest integer, ties to even. *)
Definition round_half_even (num den : Z) : Z :=
  let q := num / den in
  let r := num mod den in
  if (den <? 2 * r) || ((den =? 2 * r) && Z.odd q) then q + 1 else q.

(** [|m * 2^e| * 100] rounded to an integer: the hundredths printed by
    the [.2f] presentation type (correctly rounded, ties to even). *)
Definition hundredths (m : positive) (e : Z) : Z :=
  if 0 <=? e then Zpos m * 2 ^ e * 100
  else round_half_even (Zpos m * 100) (2 ^ (- e)).

Definition sign_chars (s : bool) : list ascii :=
  if s then ["-"%char] else [].

(** The two ways the scripts format a float: [f"{v:,.2f}"] ([grouping = true])
    and [f"{v:.2f}"] ([grouping = false]). *)
Definition format_2f (grouping : bool) (v : pyfloat) : string :=
  match v with
  | S754_nan => "nan"
  | S754_infinity s => string_of_list_ascii (sign_chars s ++ list_ascii_of_string "inf")%list
  | S754_zero s => string_of_list_ascii (sign_chars s ++ list_ascii_of_string "0.00")%list
  | S754_finite s m e =>
      let h := hundredths m e in
      let ip := digits_of (h / 100) in
      string_of_list_ascii
        (sign_chars s
         ++ (if grouping then group_thousands ip else ip)
         ++ "."%char :: digits_of (h mod 100 / 10) ++ digits_of (h mod 10))%list
  end.

(** [s.replace(old, new)] for one-character [old] and [new]. *)
Fixpoint replace (old new : ascii) (s : string) : string :=
  match s with
  | EmptyString => EmptyString
  | String c s' => String (if Ascii.eqb c old then new else c) (replace old new s')
  end.

(** [.replace(",", "X").replace(".", ",").replace("X", ".")] *)
Definition swap_separators (s : string) : string :=
  replace "X" "." (replace "." "," (replace "," "X" s)).

(* ------------------------------------------------------------------ *)
(** ** bot_resumo_diario.py: the formatters *)

Definition format_brl (value : pyvalue) : string :=
  if is_None value then "-"
  else match py_float value with
       | inl _ => "-"
       | inr v => swap_separators ("R$ " ++ format_2f true v)
       end.

Definition format_pct (value : pyvalue) : string :=
  if is_None value then "-"
  else match py_float value with
       | inl _ => "-"
       | inr v => format_2f false v ++ "%"
       end.

(* ------------------------------------------------------------------ *)
(** ** datetime *)

(** A [datetime] in the zone of the bot (America/Fortaleza). *)
Record datetime : Type := mk_datetime {
  year : Z; month : Z; day : Z;
  hour : Z; minute : Z; second : Z
}.

Definition is_leap (y : Z) : bool :=
  (y mod 4 =? 0) && (negb (y mod 100 =? 0) || (y mod 400 =? 0)).

Definition days_in_month (y m : Z) : Z :=
  if m =? 2 then (if is_leap y then 29 else 28)
  else if (m =? 4) || (m =? 6) || (m =? 9) || (m =? 11) then 30
  else 31.

(** Days of the year [y] before the first day of month [m]. *)
Definition days_before_month (y m : Z) : Z :=
  fold_left (fun acc k => acc + days_in_month y (Z.of_nat k)) (seq 1 (Z.to_nat (m - 1))) 0.

(** [date.toordinal()]: 1 for 0001-01-01. *)
Definition toordinal (d : datetime) : Z :=
  let y := year d - 1 in
  y * 365 + y / 4 - y / 100 + y / 400 + days_before_month (year d) (month d) + day d.

(** [datetime.weekday()]: Monday is 0, Sunday is 6. *)
Definition weekday (d : datetime) : Z := (toordinal d + 6) mod 7.

(** Zero-padded decimal field of a [strftime] format. *)
Definition pad (width : nat) (n : Z) : string :=
  let ds := digits_of n in
  string_of_list_ascii (repeat "0"%char (width - List.length ds) ++ ds)%list.

(** [strftime("%d/%m/%Y %H:%M")] *)
Definition strftime_dmY_HM (d : datetime) : string :=
  pad 2 (day d) ++ "/" ++ pad 2 (month d) ++ "/" ++ pad 4 (year d)
  ++ " " ++ pad 2 (hour d) ++ ":" ++ pad 2 (minute d).

(* ------------------------------------------------------------------ *)
(** ** bot_monitoramento.py: the execution window *)

(** Esteiras window: 06:00-20:00, except Sunday. *)
Definition dentro_da_janela_execucao (agora : datetime) : bool :=
  if weekday agora =? 6 then false
  else (6 <=? hour agora) && (hour agora <? 20).

(* ------------------------------------------------------------------ *)
(** ** External events and the monad of the scripts *)

(** The queries are opaque to the engine. *)
Inductive sql : Type := SQL_NOVO | SQL_REFIN | SQL_PORTABILITY | SQL_RESUMO.

(** The lines the scripts print, one constructor per [print] of the code. *)
Inductive log_line : Type :=
| LogBoot (host : string) (port : Z)    (* Verificando acesso ao DB (host:port)... *)
| LogAcessivel                          (* Banco/VPN acessivel. Seguindo execucao. *)
| LogInacessivel                        (* Banco ainda inacessivel ... Nova tentativa em 15 minutos... *)
| LogSlackErro (body : string)          (* Erro ao enviar mensagem para o Slack: r.text *)
| LogForaDaJanela (agora : datetime) (tag : string)   (* [agora] [TAG] Fora da janela. *)
| LogIniciando (agora : datetime) (tag : string)      (* [agora] [TAG] Iniciando... *)
| LogEnviado (agora : datetime) (tag : string)        (* [agora] [TAG] Enviado com sucesso! *)
| LogErro (agora : datetime) (tag : string) (e : exn) (* [agora] [TAG] Erro: e *)
| LogSuperset (step : string)           (* the progress lines of bot_superset_slack.main *)
| LogSlackApiErro (e : exn).            (* Erro ao enviar mensagem pro Slack: e.response['error'] *)

Inductive event : Type :=
| Stdout (l : log_line)
| SocketConnect (host : string) (port : Z) (timeout : Z) (connected : bool)
| SocketClose
| Sleep (secs : Z)
| CreateEngine
| ConnCheckout
| ReadSql (q : sql)
| Commit
| Rollback
| ConnClose
| EngineDispose
| HttpPost (url : string) (payload : list (string * string))
| HttpGet (url : string)
| ChatPostMessage (channel : string) (body : string).

(** How a call ends: with a value, with an exception, or still inside a
    [while True] when the iterations it was given are used up. *)
Inductive result (A : Type) : Type :=
| Return (a : A)
| Raise (e : exn)
| Blocked.
Arguments Return {A} a.
Arguments Raise {A} e.
Arguments Blocked {A}.

Definition M (A : Type) : Type := (list event * result A)%type.

Definition ret {A} (a : A) : M A := ([], Return a).
Definition raise {A} (e : exn) : M A := ([], Raise e).
Definition blocked {A} : M A := ([], Blocked).
Definition emit (ev : event) : M unit := ([ev], Return tt).
Definition print (l : log_line) : M unit := emit (Stdout l).

Definition bind {A B} (m : M A) (k : A -> M B) : M B :=
  match m with
  | (t, Return a) => let (t', r) := k a in ((t ++ t')%list, r)
  | (t, Raise e) => (t, Raise e)
  | (t, Blocked) => (t, Blocked)
  end.

Notation "x <- m ;; k" := (bind m (fun x => k))
  (at level 61, m at next level, right associativity).
Notation "m ;; k" := (bind m (fun _ => k))
  (at level 61, right associativity).

(** The value or the exception of a pure conversion. *)
Definition lift {A} (r : exn + A) : M A :=
  match r with inl e => raise e | inr a => ret a end.

(** [try: m  except <handles> as e: handler e] *)
Definition try_except {A} (m : M A) (handles : exn -> bool) (handler : exn -> M A) : M A :=
  match m with
  | (t, Raise e) =>
      if handles e then let (t', r) := handler e in ((t ++ t')%list, r)
      else (t, Raise e)
  | _ => m
  end.

(** The exit of a [with] block: [on_return] when the body ends normally,
    [on_raise] when it raises (the exception is then re-raised). *)
Definition with_exit {A} (body : M A) (on_return on_raise : list event) : M A :=
  match body with
  | (t, Return a) => ((t ++ on_return)%list, Return a)
  | (t, Raise e) => ((t ++ on_raise)%list, Raise e)
  | (t, Blocked) => (t, Blocked)
  end.

(** A list comprehension whose element expression may raise. *)
Fixpoint comprehension {A B} (f : A -> exn + B) (l : list A) : exn + list B :=
  match l with
  | [] => inr []
  | a :: l' =>
      match f a with
      | inl e => inl e
      | inr b => match comprehension f l' with
                 | inl e => inl e
                 | inr bs => inr (b :: bs)
                 end
      end
  end.

Definition newline : string := String (ascii_of_nat 10) EmptyString.

(** [sep.join(lines)] *)
Fixpoint join (sep : string) (lines : list string) : string :=
  match lines with
  | [] => ""
  | [l] => l
  | l :: rest => l ++ sep ++ join sep rest
  end.

(* ------------------------------------------------------------------ *)
(** ** The world of the two Postgres bots *)

Record db_cfg : Type := {
  cfg_host : string; cfg_port : Z; cfg_dbname : string;
  cfg_user : string; cfg_password : string
}.

(** What [post_to_slack] reads of the answer of [requests.post]: [r.ok],
    the truth of [r.json().get("ok")] (or the exception of [r.json()]),
    and [r.text]. *)
Record response : Type := {
  r_ok : bool;
  r_json_ok : exn + bool;
  r_text : string
}.

(** Everything outside the process, as one run of a job meets it.  The
    [k]-th [socket.create_connection] of a wait connects ([None]) or raises. *)
Record world (row : Type) : Type := {
  DB_CFG : db_cfg;
  SLACK_TOKEN : string;
  now : datetime;                         (* datetime.now(TZ) read by the job *)
  now_post : datetime;                    (* datetime.now(TZ) read when the message is built *)
  create_connection : nat -> option exn;
  create_engine : option exn;
  engine_begin : option exn;
  read_sql : sql -> exn + list row;
  requests_post : string -> string -> exn + response
}.
Arguments DB_CFG {row}.
Arguments SLACK_TOKEN {row}.
Arguments now {row}.
Arguments now_post {row}.
Arguments create_connection {row}.
Arguments create_engine {row}.
Arguments engine_begin {row}.
Arguments read_sql {row}.
Arguments requests_post {row}.

(* ------------------------------------------------------------------ *)
(** ** Connection infrastructure (the same in both Postgres bots) *)

Section Infra.
Context {row : Type} (w : world row).

(** One iteration of the [while True]: [true] when the [return] inside
    the [with] was reached, [false] after the [except OSError] branch. *)
Definition wait_attempt (host : string) (port : Z) (interval : Z) (k : nat) : M bool :=
  try_except
    (match create_connection w k with
     | None =>
         emit (SocketConnect host port 5 true) ;;
         with_exit (print LogAcessivel ;; ret true) [SocketClose] [SocketClose]
     | Some e =>
         emit (SocketConnect host port 5 false) ;; raise e
     end)
    is_OSError
    (fun _ => print LogInacessivel ;; emit (Sleep interval) ;; ret false).

(** The [while True] loop, from its [k]-th connection attempt on, given
    [fuel] iterations. *)
Fixpoint wait_loop (host : string) (port : Z) (interval : Z) (fuel : nat) (k : nat) : M unit :=
  match fuel with
  | O => blocked
  | S fuel' =>
      returned <- wait_attempt host port interval k ;;
      if returned : bool then ret tt
      else wait_loop host port interval fuel' (S k)
  end.

Definition wait_for_vpn_and_db (fuel : nat) (host : string) (port : Z) (interval : Z) : M unit :=
  print (LogBoot host port) ;;
  wait_loop host port interval fuel 0.

Definition run_query (fuel : nat) (q : sql) : M (list row) :=
  wait_for_vpn_and_db fuel (cfg_host (DB_CFG w)) (cfg_port (DB_CFG w)) 900 ;;
  match create_engine w with Some e => raise e | None => emit CreateEngine end ;;
  df <- match engine_begin w with
        | Some e => raise e
        | None =>
            emit ConnCheckout ;;
            with_exit (emit (ReadSql q) ;; lift (read_sql w q))
                      [Commit; ConnClose] [Rollback; ConnClose]
        end ;;
  emit EngineDispose ;;
  ret df.

(** [requests.post(...)] to chat.postMessage followed by the check of the
    answer, shared by [post_to_slack] and [send_resumo_to_slack]. *)
Definition post_message (channel body : string) : M unit :=
  emit (HttpPost "https://slack.com/api/chat.postMessage"
                 [("channel", channel); ("text", body); ("mrkdwn", "True")]) ;;
  r <- lift (requests_post w channel body) ;;
  if negb (r_ok r) then print (LogSlackErro (r_text r))
  else
    json_ok <- lift (r_json_ok r) ;;
    if negb json_ok then print (LogSlackErro (r_text r)) else ret tt.
End Infra.

(* ------------------------------------------------------------------ *)
(** ** bot_monitoramento.py: delivery and jobs *)

Definition SLACK_CHANNEL_ESTEIRAS : string := "#monitoramento-privado".

(** A row of the esteiras queries: the step name (NULL is [None]) and the
    two aggregates. *)
Record esteira_row : Type := {
  last_steptype : option string;
  qtd : pyvalue;
  sum_gross : pyvalue
}.

(** [str(x)] of a text cell. *)
Definition str_of_text (x : option string) : string :=
  match x with Some s => s | None => "None" end.

(** One element of the list comprehension of [post_to_slack]; the three
    replacements act on the whole line. *)
Definition esteira_line (r : esteira_row) : exn + string :=
  match py_int (qtd r) with
  | inl e => inl e
  | inr n =>
      match py_float (sum_gross r) with
      | inl e => inl e
      | inr v =>
          inr (swap_separators
                 ("• `" ++ str_of_text (last_steptype r) ++ "` — " ++ str_of_int n
                  ++ " contratos — R$ " ++ format_2f true v))
      end
  end.

Section Monitoramento.
Context (w : world esteira_row).

Definition post_to_slack (df : list esteira_row) (produto_label : string) : M unit :=
  let agora := strftime_dmY_HM (now_post w) in
  let header :=
    "*Monitoramento de Esteiras — " ++ produto_label ++ "*" ++ newline
    ++ "📅 " ++ agora ++ " (America/Fortaleza)" ++ newline ++ newline in
  text <- match df with
          | [] => ret (header ++ "_Sem registros para o dia atual._")
          | _ => lines <- lift (comprehension esteira_line df) ;;
                 ret (header ++ join newline lines)
          end ;;
  post_message w SLACK_CHANNEL_ESTEIRAS text.

(** The common body of [job_novo], [job_refin] and [job_portability],
    which differ in the tag they print, the query and the label. *)
Definition job_esteira (tag : string) (q : sql) (produto_label : string) (fuel : nat) : M unit :=
  let agora := now w in
  if negb (dentro_da_janela_execucao agora) then
    print (LogForaDaJanela agora tag)
  else
    try_except
      (print (LogIniciando agora tag) ;;
       df <- run_query w fuel q ;;
       post_to_slack df produto_label ;;
       print (LogEnviado agora tag))
      is_Exception
      (fun e => print (LogErro agora tag e)).

Definition job_novo : nat -> M unit :=
  job_esteira "NOVO" SQL_NOVO "Produto NOVO (Consignado Privado)".
Definition job_refin : nat -> M unit :=
  job_esteira "REFIN" SQL_REFIN "Produto REFIN (Consignado Privado)".
Definition job_portability : nat -> M unit :=
  job_esteira "PORTABILITY" SQL_PORTABILITY "Produto PORTABILITY (Consignado Privado)".
End Monitoramento.

(* ------------------------------------------------------------------ *)
(** ** bot_resumo_diario.py: delivery and job *)

Definition SLACK_CHANNEL : string := "#geral-ops-privado".

(** A row of the daily summary, with the columns the query selects; a
    NULL cell is [None]. *)
Record resumo_row : Type := {
  produto : option string;
  quantidade : pyvalue;
  grossvalue : pyvalue;
  valor_de_deposito : pyvalue;
  saldos_pagos : pyvalue;
  perc_aproveitamento_dia : pyvalue;
  perc_aproveitamento_mes : pyvalue
}.

(** [str.upper()] on the ASCII letters of a product code. *)
Definition upper_char (c : ascii) : ascii :=
  let n := nat_of_ascii c in
  if ((97 <=? n) && (n <=? 122))%nat then ascii_of_nat (n - 32) else c.

Fixpoint upper (s : string) : string :=
  match s with
  | EmptyString => EmptyString
  | String c s' => String (upper_char c) (upper s')
  end.

(** The block of one product; [int(r.get("quantidade") or 0)] is the only
    step that may raise. *)
Definition resumo_block (r : resumo_row) : exn + string :=
  let produto := upper (str_of_text (produto r)) in
  match (if py_truthy (quantidade r) then py_int (quantidade r) else inr 0) with
  | inl e => inl e
  | inr qtd =>
      let gross := format_brl (grossvalue r) in
      let valor_dep := format_brl (valor_de_deposito r) in
      let saldos_pagos := format_brl (saldos_pagos r) in
      let pct_dia := format_pct (perc_aproveitamento_dia r) in
      let pct_mes := format_pct (perc_aproveitamento_mes r) in
      let bloco :=
        List.app
          ["*" ++ produto ++ "*";
           "  • Quantidade: *" ++ str_of_int qtd ++ "*";
           "  • Grossvalue: " ++ gross]
          (List.app
             (if String.eqb produto "REFIN"
              then ["  • Valor Depósito: " ++ valor_dep] else [])
             (List.app
                (if String.eqb produto "PORTABILITY"
                 then ["  • Saldos Pagos: " ++ saldos_pagos] else [])
                ["  • Aproveitamento (dia): " ++ pct_dia;
                 "  • Aproveitamento (mês): " ++ pct_mes])) in
      inr (join newline bloco)
  end.

Section Resumo.
Context (w : world resumo_row).

Definition send_resumo_to_slack (df : list resumo_row) : M unit :=
  let agora := strftime_dmY_HM (now_post w) in
  let header :=
    "*Resumo Diário Privado — Consignado Privado*" ++ newline
    ++ "📅 " ++ agora ++ " (America/Fortaleza)" ++ newline ++ newline in
  text <- match df with
          | [] => ret (header ++ "_Sem registros para o dia atual._")
          | _ => lines <- lift (comprehension resumo_block df) ;;
                 ret (header ++ join (newline ++ newline) lines)
          end ;;
  post_message w SLACK_CHANNEL text.

Definition job_resumo (fuel : nat) : M unit :=
  let agora := now w in
  print (LogIniciando agora "RESUMO") ;;
  try_except
    (df <- run_query w fuel SQL_RESUMO ;;
     send_resumo_to_slack df ;;
     print (LogEnviado agora "RESUMO"))
    is_Exception
    (fun e => print (LogErro agora "RESUMO" e)).
End Resumo.

(* ------------------------------------------------------------------ *)
(** ** bot_superset_slack.py *)

(** An answer of [requests]: the status code and what [resp.json()] gives. *)
Record http_response (A : Type) : Type := {
  status_code : Z;
  json : exn + A
}.
Arguments status_code {A}.
Arguments json {A}.

(** [resp.raise_for_status()]: an [HTTPError] (an [OSError], through
    [RequestException]) for a 4xx or 5xx status. *)
Definition raise_for_status {A} (resp : http_response A) : M unit :=
  if (400 <=? status_code resp) && (status_code resp <? 600)
  then raise (OSError "HTTPError") else ret tt.

(** The chart JSON: key "result" (absent is [None]) holds a list of
    objects whose key "data" (absent is [None]) holds the records. *)
Record chart_result : Type := { cr_data : option (list pyvalue) }.
Record chart_data : Type := { cd_result : option (list chart_result) }.

Record superset_world : Type := {
  SUPERSET_URL : string;
  SUPERSET_USERNAME : string;
  SUPERSET_PASSWORD : string;
  CHART_ID : Z;
  SLACK_BOT_TOKEN : string;
  SLACK_CHANNEL_ID : string;
  (* requests.post to the login endpoint; the JSON as its "access_token" entry *)
  login_post : exn + http_response (option string);
  (* requests.get of the chart data with a bearer token *)
  chart_get : string -> exn + http_response chart_data;
  (* WebClient.chat_postMessage: None when Slack accepts the message *)
  chat_postMessage : string -> string -> option exn
}.

(** [d.get(key, [])] *)
Definition get_or_empty {A} (o : option (list A)) : list A :=
  match o with Some l => l | None => [] end.

Definition processar (chart : chart_data) : string :=
  let results := get_or_empty (cd_result chart) in
  match results with
  | [] => "⚠ Nenhum dado retornado pelo chart 5840."
  | r0 :: _ =>
      let data := get_or_empty (cr_data r0) in
      let total_registros := Z.of_nat (List.length data) in
      "*Monitoramento automático via Superset*" ++ newline
      ++ "- Chart ID: `5840`" ++ newline
      ++ "- Total de registros retornados: *" ++ str_of_int total_registros ++ "*"
      ++ newline ++ newline
      ++ "(Depois ajustamos essa mensagem com as métricas certas.)"
  end.

Section Superset.
Context (sw : superset_world).

Definition get_superset_token : M string :=
  emit (HttpPost (SUPERSET_URL sw ++ "/api/v1/security/login")
                 [("provider", "db"); ("username", SUPERSET_USERNAME sw);
                  ("password", SUPERSET_PASSWORD sw); ("refresh", "True")]) ;;
  resp <- lift (login_post sw) ;;
  raise_for_status resp ;;
  data <- lift (json resp) ;;
  match data with
  | Some access_token => ret access_token
  | None => raise (KeyError "access_token")
  end.

Definition get_chart_data (token : string) (chart_id : Z) : M chart_data :=
  emit (HttpGet (SUPERSET_URL sw ++ "/api/v1/chart/" ++ str_of_int chart_id ++ "/data")) ;;
  resp <- lift (chart_get sw token) ;;
  raise_for_status resp ;;
  lift (json resp).

(** Logs a [SlackApiError] and raises it again; any other exception
    passes through untouched. *)
Definition enviar_slack (texto : string) : M unit :=
  try_except
    (emit (ChatPostMessage (SLACK_CHANNEL_ID sw) texto) ;;
     match chat_postMessage sw (SLACK_CHANNEL_ID sw) texto with
     | Some e => raise e
     | None => ret tt
     end)
    is_SlackApiError
    (fun e => print (LogSlackApiErro e) ;; raise e).

Definition main : M unit :=
  print (LogSuperset "Autenticando no Superset...") ;;
  token <- get_superset_token ;;
  print (LogSuperset "Buscando dados do chart...") ;;
  chart <- get_chart_data token (CHART_ID sw) ;;
  print (LogSuperset "Processando resultados...") ;;
  let mensagem := processar chart in
  print (LogSuperset "Enviando mensagem pro Slack...") ;;
  enviar_slack mensagem ;;
  print (LogSuperset "Concluído.").
End Superset.

(* ------------------------------------------------------------------ *)
(** ** Observing a run: outcomes, deliveries, resources *)

(** The jobs return [None] on every path; the outcome of a run is what its
    last log line says. *)
Inductive JobOutcome : Type :=
| Skipped (reason : string)
| Succeeded
| Failed (error : exn).

Definition outcome_of_event (ev : event) : option JobOutcome :=
  match ev with
  | Stdout (LogForaDaJanela _ _) => Some (Skipped "outside window")
  | Stdout (LogEnviado _ _) => Some Succeeded
  | Stdout (LogErro _ _ e) => Some (Failed e)
  | _ => None
  end.

(** The outcomes a trace reports, in order. *)
Fixpoint outcomes (t : list event) : list JobOutcome :=
  match t with
  | [] => []
  | ev :: t' =>
      match outcome_of_event ev with
      | Some o => o :: outcomes t'
      | None => outcomes t'
      end
  end.

(** A delivery attempt to the sink. *)
Definition is_delivery (ev : event) : bool :=
  match ev with
  | HttpPost _ _ => true
  | ChatPostMessage _ _ => true
  | _ => false
  end.

(** A connectivity check of the gate. *)
Definition is_gate (ev : event) : bool :=
  match ev with
  | SocketConnect _ _ _ _ => true
  | SocketClose => true
  | Sleep _ => true
  | Stdout (LogBoot _ _) => true
  | Stdout LogAcessivel => true
  | Stdout LogInacessivel => true
  | _ => false
  end.

(** A step of the fetch on the database. *)
Definition is_fetch (ev : event) : bool :=
  match ev with
  | CreateEngine | ConnCheckout | ReadSql _ | Commit | Rollback
  | ConnClose | EngineDispose => true
  | _ => false
  end.

Definition is_slack_error_log (ev : event) : bool :=
  match ev with Stdout (LogSlackErro _) => true | _ => false end.

Definition count (p : event -> bool) (t : list event) : nat :=
  List.length (filter p t).

Definition is_attempt (ev : event) : bool :=
  match ev with SocketConnect _ _ _ _ => true | _ => false end.

(** The durations slept, in order. *)
Fixpoint sleeps (t : list event) : list Z :=
  match t with
  | [] => []
  | Sleep s :: t' => s :: sleeps t'
  | _ :: t' => sleeps t'
  end.

(** The resources a run acquires and releases. *)
Inductive resource : Type := a_socket | an_engine | a_connection.

Definition resource_eqb (a b : resource) : bool :=
  match a, b with
  | a_socket, a_socket | an_engine, an_engine | a_connection, a_connection => true
  | _, _ => false
  end.

Fixpoint remove_first (r : resource) (l : list resource) : list resource :=
  match l with
  | [] => []
  | x :: l' => if resource_eqb r x then l' else x :: remove_first r l'
  end.

(** The resources held after a trace, starting from [held]. *)
Fixpoint held_after (held : list resource) (t : list event) : list resource :=
  match t with
  | [] => held
  | ev :: t' =>
      held_after
        (match ev with
         | SocketConnect _ _ _ true => a_socket :: held
         | CreateEngine => an_engine :: held
         | ConnCheckout => a_connection :: held
         | SocketClose => remove_first a_socket held
         | EngineDispose => remove_first an_engine held
         | ConnClose => remove_first a_connection held
         | _ => held
         end) t'
  end.

Definition is_gate_or_fetch (ev : event) : bool := is_gate ev || is_fetch ev.

Definition is_delivery_or_log (ev : event) : bool :=
  is_delivery ev || is_slack_error_log ev.

Definition is_dispose (ev : event) : bool :=
  match ev with EngineDispose => true | _ => false end.

(** The [try] block of the four scheduled jobs with its handler: fetch,
    deliver, print the success line; [except Exception as e]: print the
    error line. *)
Definition guarded {row} (fetch : M (list row)) (deliver : list row -> M unit)
    (done : log_line) (err : exn -> log_line) : M unit :=
  try_except (df <- fetch ;; deliver df ;; print done)
             is_Exception (fun e => print (err e)).

(** Every event of the trace of [m] satisfies [p]. *)
Definition emits_only {A} (p : event -> bool) (m : M A) : Prop :=
  forallb p (fst m) = true.

(** The events of [n] attempts of the gate that fail with an [OSError],
    and of an attempt that connects. *)
Fixpoint retries (host : string) (port interval : Z) (n : nat) : list event :=
  match n with
  | O => []
  | S n' => SocketConnect host port 5 false :: Stdout LogInacessivel
            :: Sleep interval :: retries host port interval n'
  end.

Definition connected (host : string) (port : Z) : list event :=
  [SocketConnect host port 5 true; Stdout LogAcessivel; SocketClose].

(* ------------------------------------------------------------------ *)
(** ** The scheduler *)

Module Scheduler.

(** Modelled from the spec: an instant of the scheduler's clock, which the
    scripts leave to the [schedule] package; here in time units (minutes)
    counted from a Monday 00:00. *)
Definition instant : Type := Z.

Definition date_of (t : instant) : Z := t / 1440.
Definition time_of (t : instant) : Z := t mod 1440.
(** Monday is 0, Sunday is 6. *)
Definition weekday_of (t : instant) : Z := date_of t mod 7.

(** Modelled from the spec: the recurrence rules of section 3, "every N
    time-units" and "at wall-clock time T on weekdays W"; the scripts
    delegate them to the [schedule] package, which is not in the repository. *)
Inductive RecurrenceRule : Type :=
| Every (N : Z)
| At (T : Z) (W : list Z).

(** Modelled from the spec: a ScheduleEntry pairs a job with its rule and
    the instant it last ran ([None]: never); the registry of the
    [schedule] package is not in the repository. *)
Record ScheduleEntry (job : Type) : Type := {
  entry_job : job;
  entry_rule : RecurrenceRule;
  last_run : option instant
}.
Arguments entry_job {job}.
Arguments entry_rule {job}.
Arguments last_run {job}.

(** Modelled from the spec: due-ness of section 4.4, whose code is in the
    [schedule] package.  Interval rule: due when [now - last_run >= N], or
    at once when [last_run] is null.  Absolute rule: due when the weekday
    of [now] is in W, [last_run] is null or on an earlier date, and
    [now >= T] for today. *)
Definition due (rule : RecurrenceRule) (last : option instant) (now : instant) : bool :=
  match rule with
  | Every N =>
      match last with
      | None => true
      | Some l => N <=? now - l
      end
  | At T W =>
      existsb (Z.eqb (weekday_of now)) W
      && match last with
         | None => true
         | Some l => date_of l <? date_of now
         end
      && (T <=? time_of now)
  end.


(** Modelled from the spec: registration (the [schedule.every(...).do(job)]
    lines) creates an entry that has never run. *)
Definition register {job} (j : job) (rule : RecurrenceRule) : ScheduleEntry job :=
  {| entry_job := j; entry_rule := rule; last_run := None |}.

Definition set_last_run {job} (e : ScheduleEntry job) (now : instant) : ScheduleEntry job :=
  {| entry_job := entry_job e; entry_rule := entry_rule e; last_run := Some now |}.

(** Modelled from the spec: [tick(now)] of section 4.4, the [run_pending]
    of the [schedule] package.  It goes through the entries in
    registration order; each due one is run synchronously and then gets
    [last_run = now] whatever the outcome.  The result is the list of
    dispatches with their outcomes and the updated registry. *)
Fixpoint tick {job} (run : job -> instant -> JobOutcome) (now : instant)
         (entries : list (ScheduleEntry job))
  : list (job * JobOutcome) * list (ScheduleEntry job) :=
  match entries with
  | [] => ([], [])
  | e :: rest =>
      if due (entry_rule e) (last_run e) now then
        let outcome := run (entry_job e) now in
        let (dispatched, rest') := tick run now rest in
        ((entry_job e, outcome) :: dispatched, set_last_run e now :: rest')
      else
        let (dispatched, rest') := tick run now rest in
        (dispatched, e :: rest')
  end.


End Scheduler.



(* ------------------------------------------------------------------ *)
(** ** The shape of a formatted amount *)

Definition is_digit (c : ascii) : bool :=
  ((48 <=? nat_of_ascii c) && (nat_of_ascii c <=? 57))%nat.

(** After the leading group: groups of "." and three digits, then ","
    and the two decimal places. *)
Fixpoint brl_groups (l : list ascii) : bool :=
  match l with
  | sep :: d1 :: d2 :: rest =>
      match rest with
      | [] => Ascii.eqb sep "," && is_digit d1 && is_digit d2
      | d3 :: rest' =>
          Ascii.eqb sep "." && is_digit d1 && is_digit d2 && is_digit d3
          && brl_groups rest'
      end
  | _ => false
  end.

(** A number with Brazilian separators: a leading group of one to three
    digits, "." before each further group of three, "," and two decimals. *)
Definition brl_number (l : list ascii) : bool :=
  match l with
  | d1 :: l1 =>
      is_digit d1
      && (brl_groups l1
          || match l1 with
             | d2 :: l2 =>
                 is_digit d2
                 && (brl_groups l2
                     || match l2 with
                        | d3 :: l3 => is_digit d3 && brl_groups l3
                        | [] => false
                        end)
             | [] => false
             end)
  | [] => false
  end.

(** "R$ ", an optional minus sign, and a number with Brazilian separators. *)
Definition brl_shape (s : string) : bool :=
  match list_ascii_of_string s with
  | "R"%char :: "$"%char :: " "%char :: rest =>
      match rest with
      | "-"%char :: r => brl_number r
      | _ => brl_number rest
      end
  | _ => false
  end.

(** Digits, then ".", two decimals and "%". *)
Fixpoint pct_tail (l : list ascii) : bool :=
  match l with
  | c :: rest =>
      if is_digit c then pct_tail rest
      else Ascii.eqb c "."
           && match rest with
              | [d1; d2; p] => is_digit d1 && is_digit d2 && Ascii.eqb p "%"
              | _ => false
              end
  | [] => false
  end.

Definition pct_number (l : list ascii) : bool :=
  match l with
  | c :: rest => is_digit c && pct_tail rest
  | [] => false
  end.

(** An optional minus sign and a percentage with two decimal places. *)
Definition pct_shape (s : string) : bool :=
  match list_ascii_of_string s with
  | "-"%char :: r => pct_number r
  | l => pct_number l
  end.

Definition swap_char (c : ascii) : ascii :=
  if Ascii.eqb c "," then "."%char
  else if Ascii.eqb c "." then ","%char
  else if Ascii.eqb c "X" then "."%char
  else c.

(** The part of [group_thousands] after a digit: a comma first when a
    whole number of groups of three follows. *)
Definition grouped_tail (tl : list ascii) : list ascii :=
  if (negb (List.length tl =? 0)%nat && (List.length tl mod 3 =? 0)%nat)%bool
  then ","%char :: group_thousands tl
  else group_thousands tl.

(** Slack rejects a message with a non-2xx status or with [ok: false]. *)
Definition rejects (r : response) : Prop :=
  r_ok r = false \/ r_json_ok r = inr false.


(* ------------------------------------------------------------------ *)
(** ** Sample worlds *)

Definition sample_cfg : db_cfg :=
  {| cfg_host := "10.0.0.7"; cfg_port := 5432; cfg_dbname := "tudoprod";
     cfg_user := "bot"; cfg_password := "secret" |}.

Definition slack_accepts : response :=
  {| r_ok := true; r_json_ok := inr true; r_text := "{ok: true}" |}.

(** Slack answers 200 with [ok: false]. *)
Definition slack_rejects : response :=
  {| r_ok := true; r_json_ok := inr false; r_text := "{ok: false, error: channel_not_found}" |}.

Definition sample_rows : list esteira_row :=
  [ {| last_steptype := Some "PAID"; qtd := PyInt 12;
       sum_gross := PyFloat (S754_finite false 2469135 (-1)) |} ].

(** Tuesday 3 June 2025, 10:00; the database answers the third connection
    attempt, the query returns one row and Slack accepts the message. *)
Definition tuesday_world : world esteira_row :=
  {| DB_CFG := sample_cfg;
     SLACK_TOKEN := "xoxb-token";
     now := mk_datetime 2025 6 3 10 0 0;
     now_post := mk_datetime 2025 6 3 10 30 4;
     create_connection := fun k => if (k <? 2)%nat then Some (OSError "timed out") else None;
     create_engine := None;
     engine_begin := None;
     read_sql := fun _ => inr sample_rows;
     requests_post := fun _ _ => inr slack_accepts |}.

(** The same Tuesday with the database reachable at once and a world
    that differs in one answer. *)
Definition tuesday_with (query : exn + list esteira_row) (post : exn + response)
  : world esteira_row :=
  {| DB_CFG := sample_cfg;
     SLACK_TOKEN := "xoxb-token";
     now := mk_datetime 2025 6 3 10 0 0;
     now_post := mk_datetime 2025 6 3 10 0 1;
     create_connection := fun _ => None;
     create_engine := None;
     engine_begin := None;
     read_sql := fun _ => query;
     requests_post := fun _ _ => post |}.

(** Sunday 1 June 2025, noon. *)
Definition sunday_world : world esteira_row :=
  {| DB_CFG := sample_cfg;
     SLACK_TOKEN := "xoxb-token";
     now := mk_datetime 2025 6 1 12 0 0;
     now_post := mk_datetime 2025 6 1 12 0 0;
     create_connection := fun _ => None;
     create_engine := None;
     engine_begin := None;
     read_sql := fun _ => inr sample_rows;
     requests_post := fun _ _ => inr slack_accepts |}.

(** A database that never answers. *)
Definition vpn_down_world : world esteira_row :=
  {| DB_CFG := sample_cfg;
     SLACK_TOKEN := "xoxb-token";
     now := mk_datetime 2025 6 3 10 0 0;
     now_post := mk_datetime 2025 6 3 10 0 0;
     create_connection := fun _ => Some (OSError "timed out");
     create_engine := None;
     engine_begin := None;
     read_sql := fun _ => inr sample_rows;
     requests_post := fun _ _ => inr slack_accepts |}.

(** Superset answers; Slack refuses the message with a [SlackApiError]. *)
Definition superset_slack_refuses : superset_world :=
  {| SUPERSET_URL := "https://superset.example";
     SUPERSET_USERNAME := "bot";
     SUPERSET_PASSWORD := "secret";
     CHART_ID := 5840;
     SLACK_BOT_TOKEN := "xoxb-token";
     SLACK_CHANNEL_ID := "C0123456";
     login_post := inr {| status_code := 200; json := inr (Some "jwt") |};
     chart_get := fun _ => inr {| status_code := 200;
                                  json := inr {| cd_result := Some [ {| cr_data := Some [PyInt 1; PyInt 2] |} ] |} |};
     chat_postMessage := fun _ _ => Some (SlackApiError "channel_not_found") |}.


(* ------------------------------------------------------------------ *)
(** ** bot_monitoramento.py: the calls at start-up *)

(** The three calls made once before the scheduling loop
    ([job_novo(); job_refin(); job_portability()]), each run meeting the
    world of its own moment. *)
Definition startup (w1 w2 w3 : world esteira_row) (fuel : nat) : M unit :=
  job_novo w1 fuel ;;
  job_refin w2 fuel ;;
  job_portability w3 fuel.

(* ------------------------------------------------------------------ *)
(** ** Further observations of a run *)

(** Whether the character [c] occurs in [s]. *)
Fixpoint occurs (c : ascii) (s : string) : bool :=
  match s with
  | EmptyString => false
  | String c' s' => Ascii.eqb c' c || occurs c s'
  end.

(** A call of [WebClient.chat_postMessage]. *)
Definition is_chat_post (ev : event) : bool :=
  match ev with ChatPostMessage _ _ => true | _ => false end.

(** An event that is not a delivery, or is a post to chat.postMessage
    addressed to [channel]. *)
Definition posts_to (channel : string) (ev : event) : bool :=
  match ev with
  | HttpPost url ((key, c) :: _) =>
      String.eqb url "https://slack.com/api/chat.postMessage"
      && String.eqb key "channel" && String.eqb c channel
  | HttpPost _ [] => false
  | ChatPostMessage _ _ => false
  | _ => true
  end.

(** A 4xx or 5xx status, the ones [raise_for_status] refuses. *)
Definition is_error_status (status : Z) : bool :=
  (400 <=? status) && (status <? 600).

(** A row of the esteiras query with a NULL amount. *)
Definition row_without_amount : esteira_row :=
  {| last_steptype := Some "SIGNED"; qtd := PyInt 3; sum_gross := PyNone |}.

(** Superset and Slack both answer. *)
Definition superset_all_fine : superset_world :=
  {| SUPERSET_URL := "https://superset.example";
     SUPERSET_USERNAME := "bot";
     SUPERSET_PASSWORD := "secret";
     CHART_ID := 5840;
     SLACK_BOT_TOKEN := "xoxb-token";
     SLACK_CHANNEL_ID := "C0123456";
     login_post := inr {| status_code := 200; json := inr (Some "jwt") |};
     chart_get := fun _ => inr {| status_code := 200;
                                  json := inr {| cd_result := Some [ {| cr_data := Some [PyInt 1; PyInt 2] |} ] |} |};
     chat_postMessage := fun _ _ => None |}.

(** Superset refuses the login with a 401 whose body still carries a token. *)
Definition superset_unauthorized : superset_world :=
  {| SUPERSET_URL := "https://superset.example";
     SUPERSET_USERNAME := "bot";
     SUPERSET_PASSWORD := "wrong";
     CHART_ID := 5840;
     SLACK_BOT_TOKEN := "xoxb-token";
     SLACK_CHANNEL_ID := "C0123456";
     login_post := inr {| status_code := 401; json := inr (Some "stale") |};
     chart_get := fun _ => inr {| status_code := 200; json := inr {| cd_result := None |} |};
     chat_postMessage := fun _ _ => None |}.

(** The database refuses twice, then the socket call fails with an
    exception that is not an [OSError]. *)
Definition overflow_world : world esteira_row :=
  {| DB_CFG := sample_cfg;
     SLACK_TOKEN := "xoxb-token";
     now := mk_datetime 2025 6 3 10 0 0;
     now_post := mk_datetime 2025 6 3 10 0 0;
     create_connection := fun k => if (k <? 2)%nat then Some (OSError "timed out")
                                   else Some (OverflowError "port must be 0-65535");
     create_engine := None;
     engine_begin := None;
     read_sql := fun _ => inr sample_rows;
     requests_post := fun _ _ => inr slack_accepts |}.

(* ------------------------------------------------------------------ *)
(** ** bot_monitoramento.py: the first pass of the loop *)











(* ------------------------------------------------------------------ *)
(** ** bot_superset_slack.py: the answer as [resp.json()] returns it *)

(** A Python [str], as the list of its code points. *)
Definition pystr : Type := list N.

(** The code points of an ASCII literal of the source. *)
Definition text (s : string) : pystr := map N_of_ascii (list_ascii_of_string s).


Local Set Warnings "-register-all".













(* ================================================================== *)
(** * Properties *)

(* ------------------------------------------------------------------ *)
(** ** The execution window *)

Lemma weekday_range (d : datetime) : 0 <= weekday d < 7.
Proof. unfold weekday. apply Z.mod_pos_bound. lia. Qed.

(** C2. The default window policy [dentro_da_janela_execucao] is false on a
    Sunday (weekday 6); on any other day it is true exactly when the hour
    lies in [6, 20), and false for every hour outside that range. *)
Theorem window_policy_default (now : datetime) :
  (weekday now = 6 -> dentro_da_janela_execucao now = false)
  /\ (weekday now <> 6 ->
      (dentro_da_janela_execucao now = true <-> 6 <= hour now < 20)
      /\ (hour now < 6 \/ 20 <= hour now -> dentro_da_janela_execucao now = false)).
Proof.
  unfold dentro_da_janela_execucao. split.
  - intros ->. reflexivity.
  - intros Hday. apply Z.eqb_neq in Hday. rewrite Hday. split.
    + rewrite andb_true_iff, Z.leb_le, Z.ltb_lt. reflexivity.
    + intros Hout. apply andb_false_iff.
      destruct Hout; [left; apply Z.leb_gt | right; apply Z.ltb_ge]; lia.
Qed.

(** The policy on two dates of June 2025: Sunday the 1st at noon, and
    Tuesday the 3rd at 10:00, 05:59 and 20:00. *)
Example window_sunday_noon :
  let d := mk_datetime 2025 6 1 12 0 0 in
  weekday d = 6 /\ dentro_da_janela_execucao d = false.
Proof. split; reflexivity. Qed.

Example window_tuesday :
  weekday (mk_datetime 2025 6 3 10 0 0) = 1
  /\ dentro_da_janela_execucao (mk_datetime 2025 6 3 10 0 0) = true
  /\ dentro_da_janela_execucao (mk_datetime 2025 6 3 5 59 0) = false
  /\ dentro_da_janela_execucao (mk_datetime 2025 6 3 20 0 0) = false.
Proof. repeat split; reflexivity. Qed.

Lemma window_policy_default_witness :
  dentro_da_janela_execucao (mk_datetime 2025 6 1 12 0 0) = false
  /\ (dentro_da_janela_execucao (mk_datetime 2025 6 3 10 0 0) = true <-> 6 <= 10 < 20).
Proof.
  split.
  - apply (proj1 (window_policy_default (mk_datetime 2025 6 1 12 0 0))). reflexivity.
  - apply (proj2 (window_policy_default (mk_datetime 2025 6 3 10 0 0))).
    vm_compute. discriminate.
Defined.

(* ------------------------------------------------------------------ *)
(** ** Traces *)

Lemma outcomes_app (t t' : list event) :
  outcomes (t ++ t') = (outcomes t ++ outcomes t')%list.
Proof.
  induction t as [|ev t IH]; simpl; [reflexivity|].
  destruct (outcome_of_event ev); simpl; now rewrite IH.
Qed.

Lemma count_app (p : event -> bool) (t t' : list event) :
  count p (t ++ t') = (count p t + count p t')%nat.
Proof. unfold count. now rewrite filter_app, length_app. Qed.

Lemma sleeps_app (t t' : list event) :
  sleeps (t ++ t') = (sleeps t ++ sleeps t')%list.
Proof.
  induction t as [|ev t IH]; simpl; [reflexivity|].
  destruct ev; simpl; now rewrite ?IH.
Qed.

Lemma held_after_app (h : list resource) (t t' : list event) :
  held_after h (t ++ t') = held_after (held_after h t) t'.
Proof. revert h. induction t as [|ev t IH]; intros h; simpl; [reflexivity|apply IH]. Qed.

Lemma emits_only_bind {A B} p (m : M A) (k : A -> M B) :
  emits_only p m -> (forall a, emits_only p (k a)) -> emits_only p (bind m k).
Proof.
  unfold emits_only, bind. destruct m as [t [a| e |]]; simpl; intros Hm Hk; auto.
  specialize (Hk a). destruct (k a) as [t' r]; simpl in *.
  now rewrite forallb_app, Hm, Hk.
Qed.

Lemma emits_only_try {A} p (m : M A) handles handler :
  emits_only p m -> (forall e, emits_only p (handler e)) ->
  emits_only p (try_except m handles handler).
Proof.
  unfold emits_only, try_except. destruct m as [t [a| e |]]; simpl; intros Hm Hh; auto.
  destruct (handles e); simpl; auto.
  specialize (Hh e). destruct (handler e) as [t' r]; simpl in *.
  now rewrite forallb_app, Hm, Hh.
Qed.

Lemma emits_only_with_exit {A} p (m : M A) on_return on_raise :
  emits_only p m -> forallb p on_return = true -> forallb p on_raise = true ->
  emits_only p (with_exit m on_return on_raise).
Proof.
  unfold emits_only, with_exit. destruct m as [t [a| e |]]; simpl; intros Hm H1 H2; auto;
    now rewrite forallb_app, Hm, ?H1, ?H2.
Qed.

Lemma emits_only_lift {A} p (r : exn + A) : emits_only p (lift r).
Proof. destruct r; reflexivity. Qed.

Lemma emits_only_ret {A} p (a : A) : emits_only p (ret a).
Proof. reflexivity. Qed.

Lemma emits_only_raise {A} p e : emits_only p (@raise A e).
Proof. reflexivity. Qed.

Lemma emits_only_emit p ev : p ev = true -> emits_only p (emit ev).
Proof. unfold emits_only; simpl. now intros ->. Qed.

Lemma emits_only_weaken {A} (p q : event -> bool) (m : M A) :
  (forall ev, p ev = true -> q ev = true) -> emits_only p m -> emits_only q m.
Proof.
  unfold emits_only. intros Hpq. induction (fst m) as [|ev t IH]; simpl; [reflexivity|].
  rewrite !andb_true_iff. intros [H1 H2]. split; auto.
Qed.

Lemma count_zero_of_forallb (p q : event -> bool) (t : list event) :
  (forall ev, p ev = true -> q ev = false) -> forallb p t = true -> count q t = 0%nat.
Proof.
  intros Hpq. unfold count. induction t as [|ev t IH]; simpl; [reflexivity|].
  rewrite andb_true_iff. intros [H1 H2]. rewrite (Hpq _ H1). auto.
Qed.

Lemma outcomes_nil_of_forallb (p : event -> bool) (t : list event) :
  (forall ev, p ev = true -> outcome_of_event ev = None) ->
  forallb p t = true -> outcomes t = [].
Proof.
  intros Hp. induction t as [|ev t IH]; simpl; [reflexivity|].
  rewrite andb_true_iff. intros [H1 H2]. rewrite (Hp _ H1). auto.
Qed.

(* ------------------------------------------------------------------ *)
(** ** The connectivity gate *)

Section GateFacts.
Context {row : Type} (w : world row).
Variables (host : string) (port interval : Z).

Lemma wait_attempt_connects k :
  create_connection w k = None ->
  wait_attempt w host port interval k = (connected host port, Return true).
Proof. unfold wait_attempt. now intros ->. Qed.

Lemma wait_attempt_unreachable k msg :
  create_connection w k = Some (OSError msg) ->
  wait_attempt w host port interval k = (retries host port interval 1, Return false).
Proof. unfold wait_attempt. now intros ->. Qed.

Lemma wait_attempt_other k e :
  create_connection w k = Some e -> is_OSError e = false ->
  wait_attempt w host port interval k = ([SocketConnect host port 5 false], Raise e).
Proof. unfold wait_attempt. intros -> He. simpl. now rewrite He. Qed.

(** While every attempt fails with an [OSError] the loop stays inside. *)
Lemma wait_loop_blocked fuel : forall k,
  (forall j, (j < fuel)%nat -> exists msg, create_connection w (k + j) = Some (OSError msg)) ->
  wait_loop w host port interval fuel k = (retries host port interval fuel, Blocked).
Proof.
  induction fuel as [|fuel IH]; intros k Hfail; [reflexivity|].
  destruct (Hfail 0%nat ltac:(lia)) as [msg Hk]. rewrite Nat.add_0_r in Hk.
  cbn [wait_loop]. rewrite (wait_attempt_unreachable _ _ Hk).
  unfold bind. rewrite (IH (S k)); [reflexivity|].
  intros j Hj. destruct (Hfail (S j) ltac:(lia)) as [m Hm].
  exists m. now rewrite Nat.add_succ_comm.
Qed.

(** After [n] failures the first attempt that connects ends the loop. *)
Lemma wait_loop_returns n : forall k fuel,
  (forall j, (j < n)%nat -> exists msg, create_connection w (k + j) = Some (OSError msg)) ->
  create_connection w (k + n) = None ->
  (n < fuel)%nat ->
  wait_loop w host port interval fuel k = ((retries host port interval n ++ connected host port)%list, Return tt).
Proof.
  induction n as [|n IH]; intros k fuel Hfail Hok Hfuel;
    (destruct fuel as [|fuel]; [lia|]); cbn [wait_loop].
  - rewrite Nat.add_0_r in Hok. now rewrite (wait_attempt_connects _ Hok).
  - destruct (Hfail 0%nat ltac:(lia)) as [msg Hk]. rewrite Nat.add_0_r in Hk.
    rewrite (wait_attempt_unreachable _ _ Hk). unfold bind.
    rewrite (IH (S k) fuel); [reflexivity| | |lia].
    + intros j Hj. destruct (Hfail (S j) ltac:(lia)) as [m Hm].
      exists m. now rewrite Nat.add_succ_comm.
    + now rewrite Nat.add_succ_comm.
Qed.

(** The loop stays inside only while the attempts fail with [OSError]. *)
Lemma wait_loop_blocked_inv fuel : forall k,
  snd (wait_loop w host port interval fuel k) = Blocked ->
  forall j, (j < fuel)%nat -> exists msg, create_connection w (k + j) = Some (OSError msg).
Proof.
  induction fuel as [|fuel IH]; intros k Hb j Hj; [lia|].
  cbn [wait_loop] in Hb. unfold wait_attempt in Hb.
  destruct (create_connection w k) as [e|] eqn:Hk; [|discriminate Hb].
  destruct e; try discriminate Hb.
  destruct j as [|j]; [rewrite Nat.add_0_r; eauto|].
  rewrite <- Nat.add_succ_comm. apply IH; [|lia].
  simpl in Hb. destruct (wait_loop w host port interval fuel (S k)) as [t r].
  exact Hb.
Qed.

Lemma wait_loop_emits_gate fuel : forall k,
  emits_only is_gate (wait_loop w host port interval fuel k).
Proof.
  induction fuel as [|fuel IH]; intros k; [reflexivity|].
  cbn [wait_loop]. apply emits_only_bind.
  - unfold wait_attempt. destruct (create_connection w k) as [e|]; [|reflexivity].
    simpl. destruct (is_OSError e); reflexivity.
  - intros [|]; [reflexivity|apply IH].
Qed.

Lemma sleeps_retries n : sleeps (retries host port interval n) = repeat interval n.
Proof. induction n; simpl; congruence. Qed.

Lemma attempts_retries n : count is_attempt (retries host port interval n) = n.
Proof. unfold count. induction n; simpl; congruence. Qed.

Lemma held_after_retries h n : held_after h (retries host port interval n) = h.
Proof. induction n; simpl; auto. Qed.
End GateFacts.

Lemma gate_returns_after
    {row} (w : world row) (host : string) (port interval : Z) (N : nat)
    (Hdown : forall k, (k < N)%nat -> exists msg, create_connection w k = Some (OSError msg))
    (Hup : create_connection w N = None) fuel :
  (N < fuel)%nat ->
  wait_for_vpn_and_db w fuel host port interval
  = ((Stdout (LogBoot host port)
      :: retries host port interval N ++ connected host port)%list, Return tt).
Proof.
  intros Hlt. unfold wait_for_vpn_and_db.
  now rewrite (wait_loop_returns w host port interval N 0 fuel Hdown Hup Hlt).
Qed.

(** The gate never leaves the loop while the database does not answer. *)
Lemma wait_blocked_while_unreachable {row} (w : world row) host port interval :
  (forall k, exists msg, create_connection w k = Some (OSError msg)) ->
  forall fuel, snd (wait_for_vpn_and_db w fuel host port interval) = Blocked.
Proof.
  intros Hdown fuel. unfold wait_for_vpn_and_db.
  rewrite (wait_loop_blocked w host port interval fuel 0); [reflexivity|].
  intros j _. apply Hdown.
Qed.

(** Whatever the target does, the gate hands no exception to its caller
    as long as a failed attempt fails with an [OSError]. *)
Lemma wait_never_raises {row} (w : world row) host port interval :
  (forall k e, create_connection w k = Some e -> is_OSError e = true) ->
  forall fuel e, snd (wait_for_vpn_and_db w fuel host port interval) <> Raise e.
Proof.
  intros Hos fuel e. unfold wait_for_vpn_and_db.
  assert (Hloop : forall fuel k, snd (wait_loop w host port interval fuel k) <> Raise e).
  { clear fuel. induction fuel as [|fuel IH]; intros k; [discriminate|].
    cbn [wait_loop]. unfold wait_attempt.
    destruct (create_connection w k) as [e'|] eqn:Hk; [|discriminate].
    simpl. rewrite (Hos k e' Hk). simpl.
    specialize (IH (S k)).
    destruct (wait_loop w host port interval fuel (S k)) as [t r]. exact IH. }
  specialize (Hloop fuel 0%nat). simpl.
  destruct (wait_loop w host port interval fuel 0) as [t r]. exact Hloop.
Qed.

(** C5. [wait_for_vpn_and_db] on a target that refuses the first [N]
    connection attempts (each fails with an [OSError]) and accepts the next
    one: given at most [N] iterations the call is still inside its loop, so
    it does not return while the target is unreachable; given more, it
    returns normally, after exactly [N + 1] attempts and [N] sleeps of the
    configured [interval], with the socket closed; and it never hands an
    exception to its caller. *)
Theorem await_reachable_returns_only_on_success
    {row} (w : world row) (host : string) (port interval : Z) (N : nat)
    (Hdown : forall k, (k < N)%nat -> exists msg, create_connection w k = Some (OSError msg))
    (Hup : create_connection w N = None) :
  forall fuel,
    ((fuel <= N)%nat ->
       snd (wait_for_vpn_and_db w fuel host port interval) = Blocked)
    /\ ((N < fuel)%nat ->
        exists t,
          wait_for_vpn_and_db w fuel host port interval = (t, Return tt)
          /\ t = (Stdout (LogBoot host port)
                  :: retries host port interval N ++ connected host port)%list
          /\ count is_attempt t = S N
          /\ sleeps t = repeat interval N
          /\ held_after [] t = [])
    /\ (forall e, snd (wait_for_vpn_and_db w fuel host port interval) <> Raise e).
Proof.
  intros fuel.
  assert (Hblocked : (fuel <= N)%nat ->
            snd (wait_for_vpn_and_db w fuel host port interval) = Blocked).
  { intros Hle. unfold wait_for_vpn_and_db.
    rewrite (wait_loop_blocked w host port interval fuel 0); [reflexivity|].
    intros j Hj. apply Hdown. lia. }
  assert (Hret : (N < fuel)%nat ->
            wait_for_vpn_and_db w fuel host port interval
            = ((Stdout (LogBoot host port)
                :: retries host port interval N ++ connected host port)%list, Return tt)).
  { apply gate_returns_after; assumption. }
  split; [exact Hblocked|]. split.
  - intros Hlt. eexists. split; [exact (Hret Hlt)|]. split; [reflexivity|].
    repeat split.
    + change (Stdout (LogBoot host port) :: ?l) with ([Stdout (LogBoot host port)] ++ l)%list.
      rewrite !count_app, attempts_retries. unfold connected, count. simpl. lia.
    + change (Stdout (LogBoot host port) :: ?l) with ([Stdout (LogBoot host port)] ++ l)%list.
      rewrite !sleeps_app, sleeps_retries. unfold connected. simpl. now rewrite app_nil_r.
    + change (Stdout (LogBoot host port) :: ?l) with ([Stdout (LogBoot host port)] ++ l)%list.
      rewrite !held_after_app, held_after_retries. reflexivity.
  - intros e. destruct (Nat.le_gt_cases fuel N) as [Hle|Hlt].
    + rewrite (Hblocked Hle). discriminate.
    + rewrite (Hret Hlt). discriminate.
Qed.

Lemma await_reachable_returns_only_on_success_witness :
  exists t,
    wait_for_vpn_and_db tuesday_world 3 "10.0.0.7" 5432 900 = (t, Return tt)
    /\ sleeps t = [900; 900].
Proof.
  assert (Hdown : forall k, (k < 2)%nat ->
            exists msg, create_connection tuesday_world k = Some (OSError msg)).
  { intros [|[|k]] Hk; [eexists; reflexivity | eexists; reflexivity | lia]. }
  destruct (await_reachable_returns_only_on_success
              tuesday_world "10.0.0.7" 5432 900 2 Hdown eq_refl 3) as (_ & Hret & _).
  destruct (Hret ltac:(lia)) as (t & Heq & _ & _ & Hsleeps & _).
  exists t. split; [exact Heq | exact Hsleeps].
Defined.

(* ------------------------------------------------------------------ *)
(** ** Fetch and delivery *)

Section FetchFacts.
Context {row : Type} (w : world row).

Lemma run_query_emits fuel q : emits_only is_gate_or_fetch (run_query w fuel q).
Proof.
  unfold run_query, wait_for_vpn_and_db.
  repeat (apply emits_only_bind; [|intros ?]);
    try (apply emits_only_emit; reflexivity); try apply emits_only_ret.
  - apply emits_only_weaken with (p := is_gate); [|apply wait_loop_emits_gate].
    intros ev Hev. unfold is_gate_or_fetch. now rewrite Hev.
  - destruct (create_engine w); [apply emits_only_raise|now apply emits_only_emit].
  - destruct (engine_begin w); [apply emits_only_raise|].
    apply emits_only_bind; [now apply emits_only_emit|intros _].
    apply emits_only_with_exit; try reflexivity.
    apply emits_only_bind; [now apply emits_only_emit|intros _; apply emits_only_lift].
Qed.

Lemma post_message_emits channel body :
  emits_only is_delivery_or_log (post_message w channel body).
Proof.
  unfold post_message.
  apply emits_only_bind; [now apply emits_only_emit|intros _].
  apply emits_only_bind; [apply emits_only_lift|intros r].
  destruct (negb (r_ok r)); [now apply emits_only_emit|].
  apply emits_only_bind; [apply emits_only_lift|intros j].
  destruct (negb j); [now apply emits_only_emit|apply emits_only_ret].
Qed.

Lemma post_message_not_blocked channel body :
  snd (post_message w channel body) <> Blocked.
Proof.
  unfold post_message. simpl.
  destruct (requests_post w channel body) as [e|r]; simpl; [discriminate|].
  destruct (r_ok r); simpl; [|discriminate].
  destruct (r_json_ok r) as [e|[|]]; simpl; discriminate.
Qed.

Lemma run_query_blocked_inv fuel q :
  snd (run_query w fuel q) = Blocked ->
  forall k, (k < fuel)%nat -> exists msg, create_connection w k = Some (OSError msg).
Proof.
  intros Hb. apply (wait_loop_blocked_inv w (cfg_host (DB_CFG w)) (cfg_port (DB_CFG w)) 900 fuel 0).
  unfold run_query, wait_for_vpn_and_db in Hb. simpl in Hb.
  destruct (wait_loop w (cfg_host (DB_CFG w)) (cfg_port (DB_CFG w)) 900 fuel 0)
    as [t [[]|e|]]; simpl in *; try discriminate; [|reflexivity].
  exfalso.
  destruct (create_engine w); simpl in Hb; [discriminate|].
  destruct (engine_begin w); simpl in Hb; [discriminate|].
  destruct (read_sql w q); simpl in Hb; discriminate.
Qed.

Lemma run_query_outcomes fuel q : outcomes (fst (run_query w fuel q)) = [].
Proof.
  apply outcomes_nil_of_forallb with (p := is_gate_or_fetch); [|apply run_query_emits].
  intros ev; destruct ev as [[]| | | | | | | | | | | | |]; cbv; intros; congruence.
Qed.

Lemma run_query_deliveries fuel q : count is_delivery (fst (run_query w fuel q)) = 0%nat.
Proof.
  apply count_zero_of_forallb with (p := is_gate_or_fetch); [|apply run_query_emits].
  intros ev; destruct ev as [[]| | | | | | | | | | | | |]; cbv; intros; congruence.
Qed.

(** What [run_query] does once the gate has let it through. *)
Lemma run_query_after_gate fuel q N :
  (forall k, (k < N)%nat -> exists msg, create_connection w k = Some (OSError msg)) ->
  create_connection w N = None -> (N < fuel)%nat ->
  create_engine w = None -> engine_begin w = None ->
  let gate := (Stdout (LogBoot (cfg_host (DB_CFG w)) (cfg_port (DB_CFG w)))
               :: retries (cfg_host (DB_CFG w)) (cfg_port (DB_CFG w)) 900 N
               ++ connected (cfg_host (DB_CFG w)) (cfg_port (DB_CFG w)))%list in
  run_query w fuel q =
  match read_sql w q with
  | inr df => ((gate ++ [CreateEngine; ConnCheckout; ReadSql q; Commit; ConnClose; EngineDispose])%list,
               Return df)
  | inl e => ((gate ++ [CreateEngine; ConnCheckout; ReadSql q; Rollback; ConnClose])%list,
              Raise e)
  end.
Proof.
  intros Hdown Hup Hlt Hengine Hbegin gate.
  pose proof (gate_returns_after w (cfg_host (DB_CFG w))
                (cfg_port (DB_CFG w)) 900 N Hdown Hup fuel Hlt) as Hgate.
  unfold run_query. rewrite Hgate, Hengine, Hbegin.
  destruct (read_sql w q); reflexivity.
Qed.
End FetchFacts.

(** The success path of [run_query] releases everything it acquired. *)
Lemma run_query_releases_on_success {row} (w : world row) fuel q N df :
  (forall k, (k < N)%nat -> exists msg, create_connection w k = Some (OSError msg)) ->
  create_connection w N = None -> (N < fuel)%nat ->
  create_engine w = None -> engine_begin w = None ->
  read_sql w q = inr df ->
  exists t, run_query w fuel q = (t, Return df)
            /\ count is_dispose t = 1%nat
            /\ held_after [] t = [].
Proof.
  intros Hdown Hup Hlt Hengine Hbegin Hquery.
  rewrite (run_query_after_gate w fuel q N Hdown Hup Hlt Hengine Hbegin), Hquery.
  eexists. split; [reflexivity|].
  change (Stdout ?b :: ?l) with ([Stdout b] ++ l)%list. split.
  - rewrite !count_app.
    rewrite (count_zero_of_forallb is_gate is_dispose (retries _ _ _ _)).
    + reflexivity.
    + intros ev; destruct ev as [[]| | | | | | | | | | | | |]; simpl; congruence.
    + clear. induction N; simpl; auto.
  - rewrite !held_after_app, held_after_retries. reflexivity.
Qed.

(** C9. [run_query] acquires an engine and a connection on every call.
    When the query raises, the [with engine.begin()] block rolls back and
    closes the connection, but the call leaves before [engine.dispose()]:
    it ends with the exception, no dispose in its trace, and the engine
    still held. *)
Theorem run_query_skips_dispose_when_query_raises
    {row} (w : world row) (fuel : nat) (q : sql) (N : nat) (e : exn)
    (Hdown : forall k, (k < N)%nat -> exists msg, create_connection w k = Some (OSError msg))
    (Hup : create_connection w N = None)
    (Hfuel : (N < fuel)%nat)
    (Hengine : create_engine w = None)
    (Hbegin : engine_begin w = None)
    (Hquery : read_sql w q = inl e) :
  exists t gate,
    run_query w fuel q = (t, Raise e)
    /\ t = (gate ++ [CreateEngine; ConnCheckout; ReadSql q; Rollback; ConnClose])%list
    /\ count is_dispose t = 0%nat
    /\ held_after [] t = [an_engine].
Proof.
  rewrite (run_query_after_gate w fuel q N Hdown Hup Hfuel Hengine Hbegin), Hquery.
  eexists. eexists. split; [reflexivity|]. split; [reflexivity|].
  change (Stdout ?b :: ?l) with ([Stdout b] ++ l)%list. split.
  - rewrite !count_app.
    rewrite (count_zero_of_forallb is_gate is_dispose (retries _ _ _ _)).
    + reflexivity.
    + intros ev; destruct ev as [[]| | | | | | | | | | | | |]; simpl; congruence.
    + clear. induction N; simpl; auto.
  - rewrite !held_after_app, held_after_retries. reflexivity.
Qed.

Lemma run_query_skips_dispose_when_query_raises_witness :
  exists t gate,
    run_query (tuesday_with (inl (OtherException "relation does not exist")) (inr slack_accepts))
              1 SQL_NOVO
    = (t, Raise (OtherException "relation does not exist"))
    /\ t = (gate ++ [CreateEngine; ConnCheckout; ReadSql SQL_NOVO; Rollback; ConnClose])%list
    /\ count is_dispose t = 0%nat
    /\ held_after [] t = [an_engine].
Proof.
  apply (run_query_skips_dispose_when_query_raises
           (tuesday_with (inl (OtherException "relation does not exist")) (inr slack_accepts))
           1 SQL_NOVO 0).
  - intros k Hk. lia.
  - reflexivity.
  - lia.
  - reflexivity.
  - reflexivity.
  - reflexivity.
Defined.

(* ------------------------------------------------------------------ *)
(** ** The job boundary *)

Section Boundary.
Context {row : Type}.
Variables (fetch : M (list row)) (deliver : list row -> M unit).
Variables (done : log_line) (err : exn -> log_line).

Local Notation "'guarded_job'" := (guarded fetch deliver done err).

Lemma guarded_cases :
  guarded_job =
  match fetch with
  | (t, Return df) =>
      match deliver df with
      | (t2, Return _) => ((t ++ t2 ++ [Stdout done])%list, Return tt)
      | (t2, Raise e) => ((t ++ t2 ++ [Stdout (err e)])%list, Return tt)
      | (t2, Blocked) => ((t ++ t2)%list, Blocked)
      end
  | (t, Raise e) => ((t ++ [Stdout (err e)])%list, Return tt)
  | (t, Blocked) => (t, Blocked)
  end.
Proof.
  unfold guarded. destruct fetch as [t [df|e|]]; simpl; try reflexivity.
  destruct (deliver df) as [t2 [[]|e|]]; simpl; try reflexivity.
  now rewrite <- app_assoc.
Qed.

Hypothesis fetch_silent : outcomes (fst fetch) = [].
Hypothesis deliver_silent : forall df, outcomes (fst (deliver df)) = [].
Hypothesis deliver_returns : forall df, snd (deliver df) <> Blocked.
Hypothesis done_succeeded : outcome_of_event (Stdout done) = Some Succeeded.
Hypothesis err_failed : forall e, outcome_of_event (Stdout (err e)) = Some (Failed e).

Lemma guarded_never_raises e : snd guarded_job <> Raise e.
Proof.
  rewrite guarded_cases. destruct fetch as [t [df|e'|]]; simpl; try discriminate.
  destruct (deliver df) as [t2 [[]|e'|]]; simpl; discriminate.
Qed.

Lemma guarded_one_outcome :
  snd guarded_job = Return tt -> exists o, outcomes (fst guarded_job) = [o].
Proof.
  rewrite guarded_cases. destruct fetch as [t [df|e'|]]; simpl in *.
  - pose proof (deliver_silent df) as Hd.
    destruct (deliver df) as [t2 [[]|e'|]]; simpl in *; intros Hret;
      [exists Succeeded | exists (Failed e') | discriminate Hret];
      rewrite !outcomes_app, fetch_silent, Hd; simpl;
      now rewrite ?done_succeeded, ?err_failed.
  - intros _. exists (Failed e'). rewrite outcomes_app, fetch_silent. simpl.
    now rewrite err_failed.
  - discriminate.
Qed.

Lemma guarded_blocked_inv : snd guarded_job = Blocked -> snd fetch = Blocked.
Proof.
  rewrite guarded_cases. destruct fetch as [t [df|e'|]]; simpl; try discriminate; auto.
  pose proof (deliver_returns df) as Hd.
  destruct (deliver df) as [t2 [[]|e'|]]; simpl in *; try discriminate. congruence.
Qed.

Lemma guarded_fetch_error e :
  snd fetch = Raise e ->
  guarded_job = ((fst fetch ++ [Stdout (err e)])%list, Return tt)
  /\ outcomes (fst guarded_job) = [Failed e].
Proof.
  rewrite guarded_cases. destruct fetch as [t [df|e'|]]; simpl in *; try discriminate.
  intros [= ->]. split; [reflexivity|].
  rewrite outcomes_app, fetch_silent. simpl. now rewrite err_failed.
Qed.
Lemma guarded_deliver_error t df e :
  fetch = (t, Return df) -> snd (deliver df) = Raise e ->
  snd guarded_job = Return tt /\ outcomes (fst guarded_job) = [Failed e].
Proof.
  intros Hf Hd. pose proof (deliver_silent df) as Hs.
  rewrite guarded_cases. rewrite Hf in *. simpl in *.
  destruct (deliver df) as [t2 [[]|e'|]]; simpl in *; try discriminate.
  injection Hd as ->. split; [reflexivity|].
  rewrite !outcomes_app, fetch_silent, Hs. simpl. now rewrite err_failed.
Qed.
End Boundary.

Lemma started_job (l : log_line) (m : M unit) :
  (print l ;; m) = (Stdout l :: fst m, snd m).
Proof. destruct m as [t [[]|e|]]; reflexivity. Qed.

Lemma try_except_after_print {A} (l : log_line) (m : M A) handles handler :
  try_except (print l ;; m) handles handler = (print l ;; try_except m handles handler).
Proof.
  destruct m as [t [a|e|]]; simpl; try reflexivity.
  destruct (handles e); [|reflexivity]. now destruct (handler e).
Qed.

Section EsteiraFacts.
Context (w : world esteira_row).

Lemma post_to_slack_emits df label :
  emits_only is_delivery_or_log (post_to_slack w df label).
Proof.
  unfold post_to_slack. apply emits_only_bind; [|intros; apply post_message_emits].
  destruct df; [apply emits_only_ret|].
  apply emits_only_bind; [apply emits_only_lift|intros; apply emits_only_ret].
Qed.

Lemma post_to_slack_not_blocked df label : snd (post_to_slack w df label) <> Blocked.
Proof.
  unfold post_to_slack.
  match goal with |- snd (bind ?m _) <> _ => destruct m as [t [text|e|]] eqn:Ht end;
    simpl; try discriminate.
  - pose proof (post_message_not_blocked w SLACK_CHANNEL_ESTEIRAS text) as Hp.
    destruct (post_message w SLACK_CHANNEL_ESTEIRAS text) as [t' r]. exact Hp.
  - destruct df as [|r0 df]; [discriminate Ht|].
    remember (comprehension esteira_line (r0 :: df)) as c.
    destruct c; simpl in Ht; discriminate Ht.
Qed.

Lemma delivery_log_silent (t : list event) :
  forallb is_delivery_or_log t = true -> outcomes t = [].
Proof.
  apply outcomes_nil_of_forallb.
  intros ev; destruct ev as [[]| | | | | | | | | | | | |]; cbv; intros; congruence.
Qed.

Lemma job_esteira_in_window tag q label fuel :
  dentro_da_janela_execucao (now w) = true ->
  job_esteira w tag q label fuel =
  (print (LogIniciando (now w) tag) ;;
   guarded (run_query w fuel q) (fun df => post_to_slack w df label)
           (LogEnviado (now w) tag) (LogErro (now w) tag)).
Proof.
  intros Hwin. unfold job_esteira. rewrite Hwin. simpl negb. cbv iota.
  now rewrite try_except_after_print.
Qed.
End EsteiraFacts.

Section ResumoFacts.
Context (w : world resumo_row).

Lemma send_resumo_emits df : emits_only is_delivery_or_log (send_resumo_to_slack w df).
Proof.
  unfold send_resumo_to_slack. apply emits_only_bind; [|intros; apply post_message_emits].
  destruct df; [apply emits_only_ret|].
  apply emits_only_bind; [apply emits_only_lift|intros; apply emits_only_ret].
Qed.

Lemma send_resumo_not_blocked df : snd (send_resumo_to_slack w df) <> Blocked.
Proof.
  unfold send_resumo_to_slack.
  match goal with |- snd (bind ?m _) <> _ => destruct m as [t [text|e|]] eqn:Ht end;
    simpl; try discriminate.
  - pose proof (post_message_not_blocked w SLACK_CHANNEL text) as Hp.
    destruct (post_message w SLACK_CHANNEL text) as [t' r]. exact Hp.
  - destruct df as [|r0 df]; [discriminate Ht|].
    remember (comprehension resumo_block (r0 :: df)) as c.
    destruct c; simpl in Ht; discriminate Ht.
Qed.

Lemma job_resumo_unfold fuel :
  job_resumo w fuel =
  (print (LogIniciando (now w) "RESUMO") ;;
   guarded (run_query w fuel SQL_RESUMO) (send_resumo_to_slack w)
           (LogEnviado (now w) "RESUMO") (LogErro (now w) "RESUMO")).
Proof. reflexivity. Qed.
End ResumoFacts.

(** C8. When the window policy is false for the instant the job reads, the
    job prints the "outside window" line and returns: the run reports
    Skipped and its trace holds no connectivity check, no step of the fetch
    and no delivery.  [job_novo], [job_refin] and [job_portability] are the
    instances of [job_esteira]. *)
Theorem outside_window_is_skipped
    (w : world esteira_row) (tag : string) (q : sql) (label : string) (fuel : nat)
    (Hclosed : dentro_da_janela_execucao (now w) = false) :
  exists t,
    job_esteira w tag q label fuel = (t, Return tt)
    /\ t = [Stdout (LogForaDaJanela (now w) tag)]
    /\ outcomes t = [Skipped "outside window"]
    /\ count is_gate t = 0%nat
    /\ count is_fetch t = 0%nat
    /\ count is_delivery t = 0%nat.
Proof.
  unfold job_esteira. rewrite Hclosed. simpl.
  eexists. repeat split.
Qed.

Lemma outside_window_is_skipped_witness :
  exists t,
    job_novo sunday_world 5%nat = (t, Return tt)
    /\ t = [Stdout (LogForaDaJanela (mk_datetime 2025 6 1 12 0 0) "NOVO")]
    /\ outcomes t = [Skipped "outside window"]
    /\ count is_gate t = 0%nat
    /\ count is_fetch t = 0%nat
    /\ count is_delivery t = 0%nat.
Proof.
  apply (outside_window_is_skipped sunday_world "NOVO" SQL_NOVO
           "Produto NOVO (Consignado Privado)" 5).
  reflexivity.
Defined.

Lemma failed_fetch_trace {row} (w : world row) fuel q (l l' : log_line) :
  count is_delivery (Stdout l :: fst (run_query w fuel q) ++ [Stdout l']) = 0%nat.
Proof.
  change (Stdout l :: ?x) with ([Stdout l] ++ x)%list.
  rewrite !count_app, run_query_deliveries. reflexivity.
Qed.

(** C6. A run whose fetch ([run_query]) ends in an error [e] reports
    Failed(e) and makes no delivery: no request to the sink appears in its
    trace.  This holds for the three esteira jobs (run inside their window)
    and for the daily summary. *)
Theorem fetch_error_fails_without_delivery :
  (forall (w : world esteira_row) tag q label fuel e,
      dentro_da_janela_execucao (now w) = true ->
      snd (run_query w fuel q) = Raise e ->
      exists t,
        job_esteira w tag q label fuel = (t, Return tt)
        /\ outcomes t = [Failed e]
        /\ count is_delivery t = 0%nat)
  /\ (forall (w : world resumo_row) fuel e,
         snd (run_query w fuel SQL_RESUMO) = Raise e ->
         exists t,
           job_resumo w fuel = (t, Return tt)
           /\ outcomes t = [Failed e]
           /\ count is_delivery t = 0%nat).
Proof.
  split.
  - intros w tag q label fuel e Hwin Hfetch.
    rewrite (job_esteira_in_window w tag q label fuel Hwin), started_job.
    destruct (guarded_fetch_error (run_query w fuel q) (fun df => post_to_slack w df label)
                (LogEnviado (now w) tag) (LogErro (now w) tag)
                (run_query_outcomes w fuel q) (fun _ => eq_refl) e Hfetch) as [Hg Ho].
    rewrite Hg. simpl fst. simpl snd. eexists. split; [reflexivity|]. split.
    + simpl. rewrite outcomes_app, run_query_outcomes. reflexivity.
    + apply failed_fetch_trace.
  - intros w fuel e Hfetch.
    rewrite job_resumo_unfold, started_job.
    destruct (guarded_fetch_error (run_query w fuel SQL_RESUMO) (send_resumo_to_slack w)
                (LogEnviado (now w) "RESUMO") (LogErro (now w) "RESUMO")
                (run_query_outcomes w fuel SQL_RESUMO) (fun _ => eq_refl) e Hfetch) as [Hg Ho].
    rewrite Hg. simpl fst. simpl snd. eexists. split; [reflexivity|]. split.
    + simpl. rewrite outcomes_app, run_query_outcomes. reflexivity.
    + apply failed_fetch_trace.
Qed.

Lemma fetch_error_fails_without_delivery_witness :
  exists t,
    job_novo (tuesday_with (inl (OtherException "relation does not exist")) (inr slack_accepts)) 1%nat
    = (t, Return tt)
    /\ outcomes t = [Failed (OtherException "relation does not exist")]
    /\ count is_delivery t = 0%nat.
Proof.
  apply (proj1 fetch_error_fails_without_delivery
           (tuesday_with (inl (OtherException "relation does not exist")) (inr slack_accepts))
           "NOVO" SQL_NOVO "Produto NOVO (Consignado Privado)" 1%nat
           (OtherException "relation does not exist")).
  - reflexivity.
  - reflexivity.
Defined.

(* ------------------------------------------------------------------ *)
(** ** A delivery the sink rejects *)

Lemma post_message_rejected {row} (w : world row) channel body r :
  requests_post w channel body = inr r -> rejects r ->
  post_message w channel body
  = ([HttpPost "https://slack.com/api/chat.postMessage"
               [("channel", channel); ("text", body); ("mrkdwn", "True")];
      Stdout (LogSlackErro (r_text r))], Return tt).
Proof.
  intros Hpost Hrej. unfold post_message. rewrite Hpost. simpl.
  destruct (r_ok r) eqn:Hok; simpl; [|reflexivity].
  destruct Hrej as [Hrej|Hrej]; [congruence|]. now rewrite Hrej.
Qed.

Lemma post_to_slack_rejected (w : world esteira_row) df label lines r :
  comprehension esteira_line df = inr lines ->
  (forall channel body, requests_post w channel body = inr r) -> rejects r ->
  exists body,
    post_to_slack w df label
    = ([HttpPost "https://slack.com/api/chat.postMessage"
                 [("channel", SLACK_CHANNEL_ESTEIRAS); ("text", body); ("mrkdwn", "True")];
        Stdout (LogSlackErro (r_text r))], Return tt).
Proof.
  intros Hlines Hpost Hrej. unfold post_to_slack.
  destruct df as [|r0 df].
  - eexists. unfold bind at 1. unfold ret.
    rewrite (post_message_rejected w _ _ r (Hpost _ _) Hrej). reflexivity.
  - rewrite Hlines. eexists. unfold lift, bind at 2. unfold ret, bind at 1.
    rewrite (post_message_rejected w _ _ r (Hpost _ _) Hrej). reflexivity.
Qed.

Lemma run_query_slack_logs {row} (w : world row) fuel q :
  count is_slack_error_log (fst (run_query w fuel q)) = 0%nat.
Proof.
  apply count_zero_of_forallb with (p := is_gate_or_fetch); [|apply run_query_emits].
  intros ev; destruct ev as [[]| | | | | | | | | | | | |]; cbv; intros; congruence.
Qed.

(** C7. A run of an esteira job in which the fetch and the transform
    succeed and Slack rejects the message: the rejection is logged and the
    message is posted once, with no second attempt; but [post_to_slack]
    returns normally, so the job goes on to print its success line and the
    run reports Succeeded, not Failed. *)
Theorem sink_rejection_is_logged_once_and_reported_succeeded
    (w : world esteira_row) (tag : string) (q : sql) (label : string) (fuel : nat)
    (t : list event) (df : list esteira_row) (lines : list string) (r : response)
    (Hwin : dentro_da_janela_execucao (now w) = true)
    (Hfetch : run_query w fuel q = (t, Return df))
    (Hlines : comprehension esteira_line df = inr lines)
    (Hpost : forall channel body, requests_post w channel body = inr r)
    (Hrej : rejects r) :
  exists t',
    job_esteira w tag q label fuel = (t', Return tt)
    /\ count is_slack_error_log t' = 1%nat
    /\ count is_delivery t' = 1%nat
    /\ outcomes t' = [Succeeded].
Proof.
  destruct (post_to_slack_rejected w df label lines r Hlines Hpost Hrej) as [body Hsend].
  rewrite (job_esteira_in_window w tag q label fuel Hwin), started_job, guarded_cases.
  rewrite Hfetch, Hsend. simpl fst. simpl snd.
  assert (Ht : t = fst (run_query w fuel q)) by now rewrite Hfetch.
  eexists. split; [reflexivity|].
  change (Stdout ?l :: ?x) with ([Stdout l] ++ x)%list.
  repeat split.
  - rewrite !count_app, Ht, run_query_slack_logs. reflexivity.
  - rewrite !count_app, Ht, run_query_deliveries. reflexivity.
  - rewrite !outcomes_app, Ht, run_query_outcomes. reflexivity.
Qed.

Lemma sink_rejection_is_logged_once_and_reported_succeeded_witness :
  exists t',
    job_novo (tuesday_with (inr sample_rows) (inr slack_rejects)) 1%nat = (t', Return tt)
    /\ count is_slack_error_log t' = 1%nat
    /\ count is_delivery t' = 1%nat
    /\ outcomes t' = [Succeeded].
Proof.
  eapply (sink_rejection_is_logged_once_and_reported_succeeded
            (tuesday_with (inr sample_rows) (inr slack_rejects))
            "NOVO" SQL_NOVO "Produto NOVO (Consignado Privado)" 1%nat
            _ sample_rows _ slack_rejects).
  - reflexivity.
  - reflexivity.
  - reflexivity.
  - intros channel body. reflexivity.
  - right. reflexivity.
Defined.

(** The run of [job_novo] on a Tuesday morning when Slack answers
    [ok: false]: the error line and the success line are both printed. *)
Example job_novo_when_slack_rejects :
  let w := tuesday_with (inr sample_rows) (inr slack_rejects) in
  exists body,
    job_novo w 1%nat =
    ([Stdout (LogIniciando (now w) "NOVO");
      Stdout (LogBoot "10.0.0.7" 5432);
      SocketConnect "10.0.0.7" 5432 5 true; Stdout LogAcessivel; SocketClose;
      CreateEngine; ConnCheckout; ReadSql SQL_NOVO; Commit; ConnClose; EngineDispose;
      HttpPost "https://slack.com/api/chat.postMessage"
               [("channel", "#monitoramento-privado"); ("text", body); ("mrkdwn", "True")];
      Stdout (LogSlackErro "{ok: false, error: channel_not_found}");
      Stdout (LogEnviado (now w) "NOVO")],
     Return tt).
Proof. eexists. vm_compute. reflexivity. Qed.

(* ------------------------------------------------------------------ *)
(** ** Error containment *)

Lemma started_guarded_contains {row} (w : world row) (fuel : nat) (q : sql)
    (deliver : list row -> M unit) (l done : log_line) (err : exn -> log_line) :
  (forall df, outcomes (fst (deliver df)) = []) ->
  (forall df, snd (deliver df) <> Blocked) ->
  outcome_of_event (Stdout l) = None ->
  outcome_of_event (Stdout done) = Some Succeeded ->
  (forall e, outcome_of_event (Stdout (err e)) = Some (Failed e)) ->
  let run := (print l ;; guarded (run_query w fuel q) deliver done err) in
  (forall e, snd run <> Raise e)
  /\ (snd run = Return tt -> exists o, outcomes (fst run) = [o])
  /\ (forall e, snd (run_query w fuel q) = Raise e ->
        snd run = Return tt /\ outcomes (fst run) = [Failed e])
  /\ (forall t df e, run_query w fuel q = (t, Return df) -> snd (deliver df) = Raise e ->
        snd run = Return tt /\ outcomes (fst run) = [Failed e])
  /\ (forall N, (N < fuel)%nat ->
        (forall msg, create_connection w N <> Some (OSError msg)) ->
        snd run = Return tt).
Proof.
  intros Hsilent Hreturns Hl Hdone Herr run. unfold run. rewrite started_job.
  simpl fst. simpl snd.
  pose proof (run_query_outcomes w fuel q) as Hfetch.
  assert (Hnever : forall e,
             snd (guarded (run_query w fuel q) deliver done err) <> Raise e).
  { intros e. now apply guarded_never_raises. }
  assert (Hout : forall t, outcomes (Stdout l :: t) = outcomes t).
  { intros t. cbn [outcomes]. now rewrite Hl. }
  split; [exact Hnever|]. split; [|split; [|split]].
  - rewrite Hout. apply guarded_one_outcome; assumption.
  - intros e He. rewrite Hout.
    destruct (guarded_fetch_error (run_query w fuel q) deliver done err Hfetch Herr e He)
      as [Hg Ho].
    split; [now rewrite Hg | exact Ho].
  - intros t df e Hq He. rewrite Hout.
    now apply (guarded_deliver_error (run_query w fuel q) deliver done err
                 Hfetch Hsilent Herr t df e).
  - intros N HN Hgate.
    destruct (snd (guarded (run_query w fuel q) deliver done err)) as [[]|e|] eqn:Hres.
    + reflexivity.
    + now destruct (Hnever e).
    + apply (guarded_blocked_inv _ _ _ _ Hfetch Hreturns) in Hres.
      destruct (run_query_blocked_inv w fuel q Hres N HN) as [msg Hmsg].
      now destruct (Hgate msg).
Qed.

(** C1 (amended). Every run of a scheduled job of the two Postgres bots
    ([job_novo], [job_refin] and [job_portability], the instances of
    [job_esteira], and [job_resumo]) keeps its errors inside: it never
    raises to its caller; when it returns, it reports exactly one outcome;
    an error of the fetch, and an error of the transform or of the
    delivery, make it return with the outcome Failed(error); and it does
    return as soon as one connection attempt of its connectivity wait ends
    otherwise than with an [OSError]. *)
Theorem scheduled_jobs_contain_errors :
  (forall (w : world esteira_row) tag q label fuel,
      let run := job_esteira w tag q label fuel in
      (forall e, snd run <> Raise e)
      /\ (snd run = Return tt -> exists o, outcomes (fst run) = [o])
      /\ (forall e, dentro_da_janela_execucao (now w) = true ->
            snd (run_query w fuel q) = Raise e ->
            snd run = Return tt /\ outcomes (fst run) = [Failed e])
      /\ (forall t df e, dentro_da_janela_execucao (now w) = true ->
            run_query w fuel q = (t, Return df) ->
            snd (post_to_slack w df label) = Raise e ->
            snd run = Return tt /\ outcomes (fst run) = [Failed e])
      /\ (forall N, (N < fuel)%nat ->
            (forall msg, create_connection w N <> Some (OSError msg)) ->
            snd run = Return tt))
  /\ (forall (w : world resumo_row) fuel,
         let run := job_resumo w fuel in
         (forall e, snd run <> Raise e)
         /\ (snd run = Return tt -> exists o, outcomes (fst run) = [o])
         /\ (forall e, snd (run_query w fuel SQL_RESUMO) = Raise e ->
               snd run = Return tt /\ outcomes (fst run) = [Failed e])
         /\ (forall t df e, run_query w fuel SQL_RESUMO = (t, Return df) ->
               snd (send_resumo_to_slack w df) = Raise e ->
               snd run = Return tt /\ outcomes (fst run) = [Failed e])
         /\ (forall N, (N < fuel)%nat ->
               (forall msg, create_connection w N <> Some (OSError msg)) ->
               snd run = Return tt)).
Proof.
  split.
  - intros w tag q label fuel run.
    destruct (dentro_da_janela_execucao (now w)) eqn:Hwin.
    + unfold run. rewrite (job_esteira_in_window w tag q label fuel Hwin).
      destruct (started_guarded_contains w fuel q (fun df => post_to_slack w df label)
                  (LogIniciando (now w) tag) (LogEnviado (now w) tag) (LogErro (now w) tag))
        as (H1 & H2 & H3 & H4 & H5); try reflexivity.
      * intros df. apply delivery_log_silent, post_to_slack_emits.
      * intros df. apply post_to_slack_not_blocked.
      * split; [exact H1|]. split; [exact H2|]. split; [|split].
        -- intros e _. apply H3.
        -- intros t df e _. apply H4.
        -- exact H5.
    + unfold run, job_esteira. rewrite Hwin. simpl.
      split; [discriminate|]. split; [eauto|].
      split; [discriminate|]. split; [discriminate|reflexivity].
  - intros w fuel run. unfold run. rewrite job_resumo_unfold.
    apply started_guarded_contains; try reflexivity.
    + intros df. apply delivery_log_silent, send_resumo_emits.
    + intros df. apply send_resumo_not_blocked.
Qed.

Lemma scheduled_jobs_contain_errors_witness :
  snd (job_novo tuesday_world 3%nat) = Return tt
  /\ exists o, outcomes (fst (job_novo tuesday_world 3%nat)) = [o].
Proof.
  destruct (proj1 scheduled_jobs_contain_errors tuesday_world
              "NOVO" SQL_NOVO "Produto NOVO (Consignado Privado)" 3%nat)
    as (_ & Hone & _ & _ & Hret).
  assert (H : snd (job_novo tuesday_world 3%nat) = Return tt).
  { apply (Hret 2%nat); [lia|]. intros msg. simpl. discriminate. }
  split; [exact H | exact (Hone H)].
Defined.

Lemma run_query_blocked_while_unreachable {row} (w : world row) fuel q :
  (forall k, exists msg, create_connection w k = Some (OSError msg)) ->
  snd (run_query w fuel q) = Blocked.
Proof.
  intros Hdown. unfold run_query.
  pose proof (wait_blocked_while_unreachable w (cfg_host (DB_CFG w)) (cfg_port (DB_CFG w))
                900 Hdown fuel) as Hb.
  destruct (wait_for_vpn_and_db w fuel (cfg_host (DB_CFG w)) (cfg_port (DB_CFG w)) 900)
    as [t r]. simpl in Hb. now subst r.
Qed.

(** The claim C1 fails as stated.  The run of [bot_superset_slack.main] in
    which Slack refuses the message ends with the [SlackApiError] raised to
    its caller, [enviar_slack] having logged and re-raised it.  And the run
    of [job_novo] against a database that never answers has not returned
    after any number of iterations of its wait. *)
Lemma not_every_run_returns_an_outcome :
  main superset_slack_refuses
  = ([Stdout (LogSuperset "Autenticando no Superset...");
      HttpPost "https://superset.example/api/v1/security/login"
               [("provider", "db"); ("username", "bot"); ("password", "secret");
                ("refresh", "True")];
      Stdout (LogSuperset "Buscando dados do chart...");
      HttpGet "https://superset.example/api/v1/chart/5840/data";
      Stdout (LogSuperset "Processando resultados...");
      Stdout (LogSuperset "Enviando mensagem pro Slack...");
      ChatPostMessage "C0123456" (processar {| cd_result := Some [ {| cr_data := Some [PyInt 1; PyInt 2] |} ] |});
      Stdout (LogSlackApiErro (SlackApiError "channel_not_found"))],
     Raise (SlackApiError "channel_not_found"))
  /\ (forall fuel, snd (job_novo vpn_down_world fuel) = Blocked).
Proof.
  split; [vm_compute; reflexivity|].
  intros fuel. unfold job_novo.
  rewrite job_esteira_in_window by reflexivity.
  rewrite started_job, guarded_cases. simpl snd.
  pose proof (run_query_blocked_while_unreachable vpn_down_world fuel SQL_NOVO
                (fun _ => ex_intro _ "timed out" eq_refl)) as Hb.
  destruct (run_query vpn_down_world fuel SQL_NOVO) as [t r]. simpl in Hb. now subst r.
Qed.

(* ------------------------------------------------------------------ *)
(** ** The scheduler *)

Section SchedulerFacts.
Import Scheduler.
Context {job : Type}.
Implicit Types (run : job -> instant -> JobOutcome) (entries : list (ScheduleEntry job)).




End SchedulerFacts.



(** *** The run at start-up and the first pass of the loop *)
















(** The scenario of the NOVO job, every 30 minutes, never run: a tick on
    Tuesday 10:00 dispatches it; the tick at 10:29 does not; the tick at
    10:30 does. *)
Example novo_scenario :
  let run := fun (_ : string) (_ : Scheduler.instant) => Succeeded in
  let r0 := [Scheduler.register "NOVO" (Scheduler.Every 30)] in
  let '(d1, r1) := Scheduler.tick run (1440 + 600) r0 in
  let '(d2, r2) := Scheduler.tick run (1440 + 629) r1 in
  let '(d3, r3) := Scheduler.tick run (1440 + 630) r2 in
  d1 = [("NOVO", Succeeded)] /\ d2 = [] /\ d3 = [("NOVO", Succeeded)]
  /\ map Scheduler.last_run r3 = [Some (1440 + 630)].
Proof. repeat split. Qed.

(* ------------------------------------------------------------------ *)
(** ** The formatters *)

Lemma swap_separators_cons c s :
  swap_separators (String c s) = String (swap_char c) (swap_separators s).
Proof.
  unfold swap_separators, swap_char. cbn [replace]. f_equal.
  destruct (Ascii.eqb_spec c ","); [subst; reflexivity|].
  destruct (Ascii.eqb_spec c "."); [subst; reflexivity|].
  destruct (Ascii.eqb_spec c "X"); [subst; reflexivity|].
  destruct (Ascii.eqb_spec c "."); [contradiction|].
  destruct (Ascii.eqb_spec c "X"); [contradiction|reflexivity].
Qed.

Lemma swap_separators_chars (l : list ascii) :
  list_ascii_of_string (swap_separators (string_of_list_ascii l)) = map swap_char l.
Proof.
  induction l as [|c l IH]; [reflexivity|].
  cbn [string_of_list_ascii]. rewrite swap_separators_cons. simpl. now rewrite IH.
Qed.

Lemma swap_digit c : is_digit c = true -> swap_char c = c.
Proof.
  unfold swap_char. intros Hd.
  destruct (Ascii.eqb_spec c ","); [subst; discriminate|].
  destruct (Ascii.eqb_spec c "."); [subst; discriminate|].
  destruct (Ascii.eqb_spec c "X"); [subst; discriminate|reflexivity].
Qed.

Lemma uint_digits (u : Decimal.uint) :
  forallb is_digit (list_ascii_of_string (NilEmpty.string_of_uint u)) = true.
Proof. induction u; simpl; auto. Qed.

Lemma digits_of_digits (n : Z) : forallb is_digit (digits_of n) = true.
Proof.
  unfold digits_of, NilZero.string_of_uint.
  destruct (N.to_uint (Z.to_N n)) eqn:Hu; try reflexivity; rewrite <- Hu; apply uint_digits.
Qed.

Lemma digits_of_nonempty (n : Z) : digits_of n <> [].
Proof.
  unfold digits_of, NilZero.string_of_uint.
  destruct (N.to_uint (Z.to_N n)); discriminate.
Qed.

Lemma digits_of_small (n : Z) :
  0 <= n < 10 -> exists c, digits_of n = [c] /\ is_digit c = true.
Proof.
  intros Hn. rewrite <- (Z2Nat.id n) by lia.
  assert (Hk : (Z.to_nat n < 10)%nat) by lia.
  revert Hk. generalize (Z.to_nat n) as k. intros k Hk.
  do 10 (destruct k as [|k]; [eexists; split; reflexivity|]).
  lia.
Qed.

Lemma list_ascii_of_string_app (s s' : string) :
  list_ascii_of_string (s ++ s') = (list_ascii_of_string s ++ list_ascii_of_string s')%list.
Proof. induction s; simpl; congruence. Qed.

Lemma group_thousands_cons d tl :
  group_thousands (d :: tl) = d :: grouped_tail tl.
Proof. reflexivity. Qed.

Lemma mod3_of_groups k r : (r < 3)%nat -> ((r + 3 * k) mod 3 = r)%nat.
Proof.
  intros Hr. rewrite (Nat.mul_comm 3 k), Nat.Div0.mod_add. now apply Nat.mod_small.
Qed.

Lemma grouped_tail_plain k r tl :
  (0 < r < 3)%nat -> List.length tl = (r + 3 * k)%nat ->
  grouped_tail tl = group_thousands tl.
Proof.
  intros Hr Hlen. unfold grouped_tail. rewrite Hlen, mod3_of_groups by lia.
  destruct r as [|[|[|r]]]; try lia; now rewrite andb_false_r.
Qed.

Lemma grouped_tail_three k a b c tl :
  List.length tl = (3 * k)%nat ->
  grouped_tail (a :: b :: c :: tl) = ","%char :: a :: b :: c :: grouped_tail tl.
Proof.
  intros Hlen.
  assert (H3 : grouped_tail (a :: b :: c :: tl) = ","%char :: group_thousands (a :: b :: c :: tl)).
  { unfold grouped_tail. cbn [List.length]. rewrite Hlen.
    replace (S (S (S (3 * k)))) with (0 + 3 * S k)%nat by lia.
    rewrite mod3_of_groups by lia. reflexivity. }
  rewrite H3. rewrite !group_thousands_cons.
  rewrite (grouped_tail_plain k 2 (b :: c :: tl)) by (simpl; lia).
  rewrite group_thousands_cons.
  rewrite (grouped_tail_plain k 1 (c :: tl)) by (simpl; lia).
  now rewrite group_thousands_cons.
Qed.

Section Shape.
Variables (c1 c2 : ascii).
Hypotheses (Hc1 : is_digit c1 = true) (Hc2 : is_digit c2 = true).

Lemma decimals_swapped :
  map swap_char ["."%char; c1; c2] = [","%char; c1; c2].
Proof. cbn [map]. now rewrite (swap_digit c1 Hc1), (swap_digit c2 Hc2). Qed.

(** The formatted tail: groups, the decimal separator and the decimals,
    after the three replacements. *)
Lemma groups_shape k : forall tl,
  List.length tl = (3 * k)%nat -> forallb is_digit tl = true ->
  brl_groups (map swap_char (grouped_tail tl) ++ [","%char; c1; c2]) = true.
Proof.
  induction k as [|k IH]; intros tl Hlen Hd.
  - destruct tl; [|discriminate Hlen]. cbn. now rewrite Hc1, Hc2.
  - destruct tl as [|a [|b [|c tl]]]; try (simpl in Hlen; lia).
    rewrite (grouped_tail_three k) by (simpl in Hlen; lia).
    simpl in Hd. rewrite !andb_true_iff in Hd. destruct Hd as (Ha & Hb & Hc & Hd).
    specialize (IH tl ltac:(simpl in Hlen; lia) Hd).
    cbn [map app]. rewrite (swap_digit a Ha), (swap_digit b Hb), (swap_digit c Hc).
    change (swap_char ",") with "."%char.
    remember (map swap_char (grouped_tail tl) ++ [","%char; c1; c2])%list as rest.
    cbn [brl_groups]. rewrite Ha, Hb, Hc, IH. reflexivity.
Qed.

Lemma number_shape ds :
  ds <> [] -> forallb is_digit ds = true ->
  brl_number (map swap_char (group_thousands ds ++ ["."%char; c1; c2])) = true.
Proof.
  intros Hne Hd. rewrite map_app, decimals_swapped.
  assert (Hsplit : exists k r, (0 < r <= 3)%nat /\ List.length ds = (r + 3 * k)%nat).
  { destruct ds as [|d ds]; [contradiction|]. cbn [List.length].
    exists (List.length ds / 3)%nat, (S (List.length ds mod 3)).
    pose proof (Nat.mod_upper_bound (List.length ds) 3 ltac:(lia)).
    pose proof (Nat.div_mod_eq (List.length ds) 3). lia. }
  destruct Hsplit as (k & r & Hr & Hlen).
  destruct ds as [|d1 ds]; [contradiction|].
  simpl in Hd. apply andb_true_iff in Hd. destruct Hd as [H1 Hd].
  rewrite group_thousands_cons. cbn [map app brl_number].
  rewrite (swap_digit d1 H1), H1. cbn [andb].
  destruct r as [|[|[|[|r]]]]; try lia.
  - rewrite groups_shape with (k := k); [reflexivity| simpl in Hlen; lia | exact Hd].
  - destruct ds as [|d2 ds]; [simpl in Hlen; lia|].
    simpl in Hd. apply andb_true_iff in Hd. destruct Hd as [H2 Hd].
    rewrite (grouped_tail_plain k 1 (d2 :: ds)) by (simpl in *; lia).
    rewrite group_thousands_cons. cbn [map app].
    rewrite (swap_digit d2 H2), H2. cbn [andb].
    rewrite groups_shape with (k := k); [|simpl in Hlen; lia | exact Hd].
    now rewrite orb_true_r.
  - destruct ds as [|d2 [|d3 ds]]; try (simpl in Hlen; lia).
    simpl in Hd. rewrite !andb_true_iff in Hd. destruct Hd as (H2 & H3 & Hd).
    rewrite (grouped_tail_plain k 2 (d2 :: d3 :: ds)) by (simpl in *; lia).
    rewrite group_thousands_cons.
    rewrite (grouped_tail_plain k 1 (d3 :: ds)) by (simpl in *; lia).
    rewrite group_thousands_cons. cbn [map app].
    rewrite (swap_digit d2 H2), (swap_digit d3 H3), H2, H3. cbn [andb].
    rewrite groups_shape with (k := k); [|simpl in Hlen; lia | exact Hd].
    now rewrite !orb_true_r.
Qed.

Lemma pct_tail_shape ds :
  forallb is_digit ds = true ->
  pct_tail (ds ++ ["."%char; c1; c2; "%"%char]) = true.
Proof.
  induction ds as [|d ds IH]; intros Hd.
  - simpl. now rewrite Hc1, Hc2.
  - simpl in Hd. apply andb_true_iff in Hd. destruct Hd as [H1 Hd].
    cbn [app pct_tail]. rewrite H1. now apply IH.
Qed.

Lemma pct_number_shape ds :
  ds <> [] -> forallb is_digit ds = true ->
  pct_number (ds ++ ["."%char; c1; c2; "%"%char]) = true.
Proof.
  intros Hne Hd. destruct ds as [|d ds]; [contradiction|].
  simpl in Hd. apply andb_true_iff in Hd. destruct Hd as [H1 Hd].
  cbn [app pct_number]. rewrite H1. now apply pct_tail_shape.
Qed.
End Shape.

Lemma hundredths_digits (h : Z) :
  exists c1 c2,
    digits_of (h mod 100 / 10) = [c1] /\ digits_of (h mod 10) = [c2]
    /\ is_digit c1 = true /\ is_digit c2 = true.
Proof.
  destruct (digits_of_small (h mod 100 / 10)) as (c1 & E1 & D1).
  { pose proof (Z.mod_pos_bound h 100 ltac:(lia)).
    split; [apply Z.div_pos; lia | apply Z.div_lt_upper_bound; lia]. }
  destruct (digits_of_small (h mod 10)) as (c2 & E2 & D2).
  { apply Z.mod_pos_bound. lia. }
  exists c1, c2. auto.
Qed.

Lemma format_brl_finite_shape (s : bool) (m : positive) (e : Z) :
  brl_shape (swap_separators ("R$ " ++ format_2f true (S754_finite s m e))) = true.
Proof.
  unfold format_2f.
  destruct (hundredths_digits (hundredths m e)) as (c1 & c2 & E1 & E2 & D1 & D2).
  rewrite E1, E2.
  set (ip := digits_of (hundredths m e / 100)).
  pose proof (number_shape c1 c2 D1 D2 ip (digits_of_nonempty _) (digits_of_digits _)) as Hnum.
  unfold brl_shape. cbn [append]. rewrite !swap_separators_cons.
  cbn [list_ascii_of_string]. rewrite swap_separators_chars.
  change (swap_char "R") with "R"%char. change (swap_char "$") with "$"%char.
  change (swap_char " ") with " "%char. cbv iota beta.
  change ("."%char :: [c1] ++ [c2])%list with ["."%char; c1; c2].
  destruct s; cbn [sign_chars app map].
  - change (swap_char "-") with "-"%char. exact Hnum.
  - remember (map swap_char (group_thousands ip ++ ["."%char; c1; c2])) as l.
    destruct l as [|d l]; [discriminate Hnum|].
    assert (Hd : is_digit d = true).
    { cbn [brl_number] in Hnum. now apply andb_true_iff in Hnum. }
    destruct d as [[] [] [] [] [] [] [] []]; try discriminate Hd; exact Hnum.
Qed.

Lemma format_pct_finite_shape (s : bool) (m : positive) (e : Z) :
  pct_shape (format_2f false (S754_finite s m e) ++ "%") = true.
Proof.
  unfold format_2f.
  destruct (hundredths_digits (hundredths m e)) as (c1 & c2 & E1 & E2 & D1 & D2).
  rewrite E1, E2.
  set (ip := digits_of (hundredths m e / 100)).
  pose proof (pct_number_shape c1 c2 D1 D2 ip (digits_of_nonempty _) (digits_of_digits _)) as Hnum.
  unfold pct_shape.
  rewrite list_ascii_of_string_app, list_ascii_of_string_of_list_ascii.
  change (list_ascii_of_string "%") with ["%"%char].
  change ("."%char :: [c1] ++ [c2])%list with ["."%char; c1; c2].
  assert (Hl : ((ip ++ ["."%char; c1; c2]) ++ ["%"%char]
                = ip ++ ["."%char; c1; c2; "%"%char])%list).
  { now rewrite <- app_assoc. }
  destruct s; cbn [sign_chars app].
  - rewrite Hl. exact Hnum.
  - rewrite Hl.
    remember (ip ++ ["."%char; c1; c2; "%"%char])%list as l.
    destruct l as [|d l]; [discriminate Hnum|].
    assert (Hd : is_digit d = true).
    { cbn [pct_number] in Hnum. now apply andb_true_iff in Hnum. }
    destruct d as [[] [] [] [] [] [] [] []]; try discriminate Hd; exact Hnum.
Qed.

(** C10 (amended). The two formatters are total.  They return "-" for
    [None] and for a value [float()] rejects.  For a value that converts to
    a finite float, [format_brl] returns "R$ ", an optional minus sign and a
    number with "." between groups of three digits, "," and two decimals,
    and [format_pct] a number with two decimals and "%".  For a value that
    converts to NaN or to an infinity they return "R$ nan", "R$ inf",
    "R$ -inf" and "nan%", "inf%", "-inf%". *)
Theorem formatters_total_and_shaped (value : pyvalue) :
  (is_None value = true \/ (exists e, py_float value = inl e) ->
     format_brl value = "-" /\ format_pct value = "-")
  /\ (forall v, is_None value = false -> py_float value = inr v ->
        match v with
        | S754_nan =>
            format_brl value = "R$ nan" /\ format_pct value = "nan%"
        | S754_infinity s =>
            format_brl value = (if s then "R$ -inf" else "R$ inf")
            /\ format_pct value = (if s then "-inf%" else "inf%")
        | S754_zero _ | S754_finite _ _ _ =>
            brl_shape (format_brl value) = true
            /\ pct_shape (format_pct value) = true
        end).
Proof.
  unfold format_brl, format_pct. split.
  - intros [Hnone | [e He]].
    + now rewrite Hnone.
    + rewrite He. now destruct (is_None value).
  - intros v Hnone Hv. rewrite Hnone, Hv.
    destruct v as [s|s| |s m e].
    + destruct s; split; reflexivity.
    + destruct s; split; reflexivity.
    + split; reflexivity.
    + split; [apply format_brl_finite_shape | apply format_pct_finite_shape].
Qed.

Lemma formatters_total_and_shaped_witness :
  brl_shape (format_brl (PyFloat (S754_finite false 2469135 (-1)))) = true
  /\ pct_shape (format_pct (PyFloat (S754_finite false 2469135 (-1)))) = true.
Proof.
  apply (proj2 (formatters_total_and_shaped (PyFloat (S754_finite false 2469135 (-1))))
               (S754_finite false 2469135 (-1))).
  - reflexivity.
  - reflexivity.
Defined.

(** The claim C10 fails as stated: NaN converts with [float()], and the
    formatters return "R$ nan" and "nan%", neither "-" nor a number with two
    decimal places. *)
Lemma formatters_on_nan :
  is_None (PyFloat S754_nan) = false
  /\ py_float (PyFloat S754_nan) = inr S754_nan
  /\ format_brl (PyFloat S754_nan) = "R$ nan"
  /\ brl_shape (format_brl (PyFloat S754_nan)) = false
  /\ format_pct (PyFloat S754_nan) = "nan%"
  /\ pct_shape (format_pct (PyFloat S754_nan)) = false.
Proof. repeat split. Qed.

Example format_brl_examples :
  format_brl (PyFloat (S754_finite false 2469135 (-1))) = "R$ 1.234.567,50"
  /\ format_brl (PyFloat (S754_finite true 1 (-3))) = "R$ -0,12"
  /\ format_brl (PyFloat (S754_finite false 3 (-3))) = "R$ 0,38"
  /\ format_brl (PyInt 1000) = "R$ 1.000,00"
  /\ format_brl (PyInt 999) = "R$ 999,00"
  /\ format_brl PyNone = "-"
  /\ format_brl (PyObject (inl (ValueError "could not convert string to float")) (inl (ValueError "")) true) = "-"
  /\ format_pct (PyFloat (S754_finite false 1023 (-10))) = "1.00%"
  /\ format_pct (PyFloat (S754_finite true 1 (-10))) = "-0.00%"
  /\ format_pct (PyInt 12345) = "12345.00%".
Proof. repeat split. Qed.

(* ================================================================== *)
(** * Further properties of the scripts *)

(* ------------------------------------------------------------------ *)
(** ** bot_superset_slack.py *)





(** X3. [get_chart_data] returns the parsed chart exactly when the answer
    has no 4xx/5xx status and its body parses; it asks for the chart
    [chart_id] with one GET, whatever the outcome. *)
Theorem get_chart_data_result (sw : superset_world) (token : string) (chart_id : Z) :
  (forall chart,
      snd (get_chart_data sw token chart_id) = Return chart <->
      exists resp, chart_get sw token = inr resp
                   /\ is_error_status (status_code resp) = false
                   /\ json resp = inr chart)
  /\ fst (get_chart_data sw token chart_id)
     = [HttpGet (SUPERSET_URL sw ++ "/api/v1/chart/" ++ str_of_int chart_id ++ "/data")].
Proof.
  unfold get_chart_data, raise_for_status, is_error_status. split.
  - intros chart. split.
    + destruct (chart_get sw token) as [e|resp]; simpl; [discriminate|].
      destruct ((400 <=? status_code resp) && (status_code resp <? 600)) eqn:Hst;
        simpl; [discriminate|].
      destruct (json resp) as [e|c] eqn:Hj; simpl; try discriminate.
      intros [= ->]. exists resp. auto.
    + intros (resp & Hl & Hst & Hj). rewrite Hl. simpl. rewrite Hst. simpl.
      now rewrite Hj.
  - destruct (chart_get sw token) as [e|resp]; simpl; [reflexivity|].
    destruct ((400 <=? status_code resp) && (status_code resp <? 600)); simpl;
      [reflexivity|].
    destruct (json resp); reflexivity.
Qed.

Lemma get_chart_data_result_witness :
  exists chart, snd (get_chart_data superset_all_fine "jwt" 5840) = Return chart.
Proof.
  eexists.
  apply (proj1 (get_chart_data_result superset_all_fine "jwt" 5840)).
  eexists. split; [reflexivity|]. split; reflexivity.
Defined.

(** X4. [enviar_slack] never swallows a failure: it returns normally
    exactly when Slack accepted the message, and otherwise raises the very
    exception of [chat_postMessage]; it prints its error line for a
    [SlackApiError] and for no other exception; and it calls
    [chat_postMessage] once. *)
Theorem enviar_slack_reraises (sw : superset_world) (texto : string) :
  (snd (enviar_slack sw texto) = Return tt <->
     chat_postMessage sw (SLACK_CHANNEL_ID sw) texto = None)
  /\ (forall e,
         snd (enviar_slack sw texto) = Raise e <->
         chat_postMessage sw (SLACK_CHANNEL_ID sw) texto = Some e)
  /\ (forall e,
         In (Stdout (LogSlackApiErro e)) (fst (enviar_slack sw texto)) <->
         chat_postMessage sw (SLACK_CHANNEL_ID sw) texto = Some e
         /\ is_SlackApiError e = true)
  /\ count is_chat_post (fst (enviar_slack sw texto)) = 1%nat.
Proof.
  unfold enviar_slack.
  destruct (chat_postMessage sw (SLACK_CHANNEL_ID sw) texto) as [e0|]; simpl.
  - destruct (is_SlackApiError e0) eqn:Hs; simpl.
    + split; [split; discriminate|]. split; [intros e; split; congruence|].
      split; [|reflexivity].
      intros e. split.
      * intros [H|[H|[]]]; [discriminate H|]. injection H as ->. auto.
      * intros [[= ->] _]. right. now left.
    + split; [split; discriminate|]. split; [intros e; split; congruence|].
      split; [|reflexivity].
      intros e. split.
      * intros [H|[]]. discriminate H.
      * intros [[= ->] He]. congruence.
  - split; [split; reflexivity|]. split; [intros e; split; discriminate|].
    split; [|reflexivity].
    intros e. split.
    + intros [H|[]]. discriminate H.
    + intros [H _]. discriminate H.
Qed.

Lemma enviar_slack_reraises_witness :
  snd (enviar_slack superset_slack_refuses "texto") = Raise (SlackApiError "channel_not_found").
Proof.
  apply (proj1 (proj2 (enviar_slack_reraises superset_slack_refuses "texto"))).
  reflexivity.
Defined.

Lemma get_superset_token_trace (sw : superset_world) :
  fst (get_superset_token sw)
  = [HttpPost (SUPERSET_URL sw ++ "/api/v1/security/login")
       [("provider", "db"); ("username", SUPERSET_USERNAME sw);
        ("password", SUPERSET_PASSWORD sw); ("refresh", "True")]]
  /\ snd (get_superset_token sw) <> Blocked.
Proof.
  unfold get_superset_token, raise_for_status.
  destruct (login_post sw) as [e|resp]; simpl; [split; [reflexivity|discriminate]|].
  destruct ((400 <=? status_code resp) && (status_code resp <? 600)); simpl;
    [split; [reflexivity|discriminate]|].
  destruct (json resp) as [e|[tok|]]; simpl; split; try reflexivity; discriminate.
Qed.

Lemma get_chart_data_trace (sw : superset_world) token chart_id :
  fst (get_chart_data sw token chart_id)
  = [HttpGet (SUPERSET_URL sw ++ "/api/v1/chart/" ++ str_of_int chart_id ++ "/data")]
  /\ snd (get_chart_data sw token chart_id) <> Blocked.
Proof.
  unfold get_chart_data, raise_for_status.
  destruct (chart_get sw token) as [e|resp]; simpl; [split; [reflexivity|discriminate]|].
  destruct ((400 <=? status_code resp) && (status_code resp <? 600)); simpl;
    [split; [reflexivity|discriminate]|].
  destruct (json resp); simpl; split; try reflexivity; discriminate.
Qed.

Lemma enviar_slack_cases (sw : superset_world) texto :
  enviar_slack sw texto =
  match chat_postMessage sw (SLACK_CHANNEL_ID sw) texto with
  | None => ([ChatPostMessage (SLACK_CHANNEL_ID sw) texto], Return tt)
  | Some e =>
      (ChatPostMessage (SLACK_CHANNEL_ID sw) texto
       :: (if is_SlackApiError e then [Stdout (LogSlackApiErro e)] else []),
       Raise e)
  end.
Proof.
  unfold enviar_slack.
  destruct (chat_postMessage sw (SLACK_CHANNEL_ID sw) texto) as [e|]; simpl; [|reflexivity].
  destruct (is_SlackApiError e); reflexivity.
Qed.

Lemma main_cases (sw : superset_world) :
  main sw =
  match snd (get_superset_token sw) with
  | Return token =>
      match snd (get_chart_data sw token (CHART_ID sw)) with
      | Return chart =>
          let sent := enviar_slack sw (processar chart) in
          let t := (Stdout (LogSuperset "Autenticando no Superset...")
                    :: fst (get_superset_token sw)
                    ++ Stdout (LogSuperset "Buscando dados do chart...")
                    :: fst (get_chart_data sw token (CHART_ID sw))
                    ++ Stdout (LogSuperset "Processando resultados...")
                    :: Stdout (LogSuperset "Enviando mensagem pro Slack...")
                    :: fst sent)%list in
          match snd sent with
          | Return _ => ((t ++ [Stdout (LogSuperset "Concluído.")])%list, Return tt)
          | Raise e => (t, Raise e)
          | Blocked => (t, Blocked)
          end
      | Raise e =>
          ((Stdout (LogSuperset "Autenticando no Superset...")
            :: fst (get_superset_token sw)
            ++ Stdout (LogSuperset "Buscando dados do chart...")
            :: fst (get_chart_data sw token (CHART_ID sw)))%list, Raise e)
      | Blocked =>
          ((Stdout (LogSuperset "Autenticando no Superset...")
            :: fst (get_superset_token sw)
            ++ Stdout (LogSuperset "Buscando dados do chart...")
            :: fst (get_chart_data sw token (CHART_ID sw)))%list, Blocked)
      end
  | Raise e =>
      (Stdout (LogSuperset "Autenticando no Superset...") :: fst (get_superset_token sw),
       Raise e)
  | Blocked =>
      (Stdout (LogSuperset "Autenticando no Superset...") :: fst (get_superset_token sw),
       Blocked)
  end.
Proof.
  unfold main.
  destruct (get_superset_token sw) as [t1 [token|e1|]]; try reflexivity.
  cbn [bind print emit fst snd app].
  destruct (get_chart_data sw token (CHART_ID sw)) as [t2 [chart|e2|]];
    cbn [bind print emit fst snd app]; try (now rewrite ?app_nil_r).
  destruct (enviar_slack sw (processar chart)) as [t3 [[]|e3|]];
    cbn [bind print emit fst snd app].
  - f_equal; cbn [app]; repeat (rewrite <- app_assoc; cbn [app]); reflexivity.
  - f_equal; cbn [app]; repeat (rewrite <- app_assoc; cbn [app]); reflexivity.
  - f_equal; cbn [app]; repeat (rewrite <- app_assoc; cbn [app]); reflexivity.
Qed.

(** X5. [main] writes to Slack only after both Superset calls succeeded:
    it returns normally exactly when the token and the chart were obtained
    and Slack accepted the message built by [processar]; when the login or
    the chart request fails, no [chat_postMessage] is made; it never makes
    more than one; and it prints its last line exactly when it returns. *)
Theorem main_posts_only_after_fetch (sw : superset_world) :
  (snd (main sw) = Return tt <->
     exists token chart,
       snd (get_superset_token sw) = Return token
       /\ snd (get_chart_data sw token (CHART_ID sw)) = Return chart
       /\ chat_postMessage sw (SLACK_CHANNEL_ID sw) (processar chart) = None)
  /\ ((forall token, snd (get_superset_token sw) <> Return token) ->
      count is_chat_post (fst (main sw)) = 0%nat)
  /\ (forall token,
         snd (get_superset_token sw) = Return token ->
         (forall chart, snd (get_chart_data sw token (CHART_ID sw)) <> Return chart) ->
         count is_chat_post (fst (main sw)) = 0%nat)
  /\ (count is_chat_post (fst (main sw)) <= 1)%nat
  /\ (In (Stdout (LogSuperset "Concluído.")) (fst (main sw)) <-> snd (main sw) = Return tt).
Proof.
  rewrite main_cases.
  destruct (get_superset_token_trace sw) as [Ht1 Hb1]. rewrite Ht1.
  destruct (snd (get_superset_token sw)) as [token|e1|] eqn:Htok;
    [|clear Hb1|now destruct Hb1].
  - destruct (get_chart_data_trace sw token (CHART_ID sw)) as [Ht2 Hb2]. rewrite Ht2.
    destruct (snd (get_chart_data sw token (CHART_ID sw))) as [chart|e2|] eqn:Hchart;
      [|clear Hb2|now destruct Hb2].
    + rewrite enviar_slack_cases.
      destruct (chat_postMessage sw (SLACK_CHANNEL_ID sw) (processar chart)) as [e|] eqn:Hpost;
        cbn [fst snd app].
      * split; [split; [discriminate|]|].
        { intros (tok' & chart' & Ha & Hb & Hc). injection Ha as <-.
          rewrite Hchart in Hb. injection Hb as <-. congruence. }
        split; [intros H; now destruct (H token)|].
        split; [intros tok' Ha H; injection Ha as <-; rewrite Hchart in H;
                now destruct (H chart)|].
        split; [destruct (is_SlackApiError e); unfold count; simpl; lia|].
        split; [|discriminate].
        intros Hin. exfalso.
        destruct (is_SlackApiError e); simpl in Hin;
          repeat (destruct Hin as [Hin|Hin]; [discriminate Hin|]); exact Hin.
      * split; [split; [intros _; exists token, chart; rewrite Hchart; auto|reflexivity]|].
        split; [intros H; now destruct (H token)|].
        split; [intros tok' Ha H; injection Ha as <-; rewrite Hchart in H;
                now destruct (H chart)|].
        split; [unfold count; simpl; lia|].
        split; [reflexivity|].
        intros _. simpl. do 7 right. now left.
    + cbn [fst snd app].
      split; [split; [discriminate|]|].
      { intros (tok' & chart' & Ha & Hb & _). injection Ha as <-.
        rewrite Hchart in Hb. discriminate Hb. }
      split; [intros _; reflexivity|].
      split; [intros; reflexivity|].
      split; [unfold count; simpl; lia|].
      split; [|discriminate].
      intros Hin. exfalso. simpl in Hin.
      repeat (destruct Hin as [Hin|Hin]; [discriminate Hin|]). exact Hin.
  - cbn [fst snd app].
    split; [split; [discriminate|]|].
    { intros (tok' & chart' & Ha & _). discriminate Ha. }
    split; [intros _; reflexivity|].
    split; [intros tok' Ha; discriminate Ha|].
    split; [unfold count; simpl; lia|].
    split; [|discriminate].
    intros Hin. exfalso. simpl in Hin.
    repeat (destruct Hin as [Hin|Hin]; [discriminate Hin|]). exact Hin.
Qed.

Lemma main_posts_only_after_fetch_witness :
  count is_chat_post (fst (main superset_unauthorized)) = 0%nat
  /\ snd (main superset_all_fine) = Return tt.
Proof.
  split.
  - apply (proj1 (proj2 (main_posts_only_after_fetch superset_unauthorized))).
    intros token. vm_compute. discriminate.
  - apply (proj2 (proj1 (main_posts_only_after_fetch superset_all_fine))).
    exists "jwt", {| cd_result := Some [ {| cr_data := Some [PyInt 1; PyInt 2] |} ] |}.
    repeat split.
Defined.

(* ------------------------------------------------------------------ *)
(** ** bot_monitoramento.py: the message and its rows *)

Lemma job_esteira_cases (w : world esteira_row) tag q label fuel :
  dentro_da_janela_execucao (now w) = true ->
  job_esteira w tag q label fuel =
  match run_query w fuel q with
  | (t, Return df) =>
      match post_to_slack w df label with
      | (t2, Return _) =>
          (Stdout (LogIniciando (now w) tag)
           :: t ++ t2 ++ [Stdout (LogEnviado (now w) tag)], Return tt)%list
      | (t2, Raise e) =>
          (Stdout (LogIniciando (now w) tag)
           :: t ++ t2 ++ [Stdout (LogErro (now w) tag e)], Return tt)%list
      | (t2, Blocked) => (Stdout (LogIniciando (now w) tag) :: t ++ t2, Blocked)%list
      end
  | (t, Raise e) =>
      (Stdout (LogIniciando (now w) tag) :: t ++ [Stdout (LogErro (now w) tag e)],
       Return tt)%list
  | (t, Blocked) => (Stdout (LogIniciando (now w) tag) :: t, Blocked)
  end.
Proof.
  intros Hwin. rewrite (job_esteira_in_window w tag q label fuel Hwin).
  rewrite started_job, guarded_cases.
  destruct (run_query w fuel q) as [t [df|e|]]; try reflexivity.
  destruct (post_to_slack w df label) as [t2 [[]|e|]]; reflexivity.
Qed.

(** The comprehension stops at the first element that raises. *)
Lemma comprehension_first_error {A B} (f : A -> exn + B) good bad rest e :
  Forall (fun a => exists b, f a = inr b) good ->
  f bad = inl e ->
  comprehension f (good ++ bad :: rest) = inl e.
Proof.
  intros Hgood Hbad. induction Hgood as [|a good [b Hb] _ IH]; simpl.
  - now rewrite Hbad.
  - now rewrite Hb, IH.
Qed.

(** X6. One row that cannot be formatted and nothing is posted: when a row
    of the DataFrame makes [int(r['qtd'])] or [float(r['sum_gross'])] raise,
    the rows before it being fine, [post_to_slack] raises that error
    before any request to Slack, and the run of the job reports Failed with
    it and makes no delivery. *)
Theorem bad_row_fails_without_delivery
    (w : world esteira_row) (tag : string) (q : sql) (label : string) (fuel : nat)
    (t : list event) (good : list esteira_row) (bad : esteira_row)
    (rest : list esteira_row) (e : exn)
    (Hwin : dentro_da_janela_execucao (now w) = true)
    (Hfetch : run_query w fuel q = (t, Return (good ++ bad :: rest)%list))
    (Hgood : Forall (fun r => exists line, esteira_line r = inr line) good)
    (Hbad : esteira_line bad = inl e) :
  post_to_slack w (good ++ bad :: rest) label = ([], Raise e)
  /\ exists t',
       job_esteira w tag q label fuel = (t', Return tt)
       /\ outcomes t' = [Failed e]
       /\ count is_delivery t' = 0%nat.
Proof.
  assert (Hsend : post_to_slack w (good ++ bad :: rest) label = ([], Raise e)).
  { unfold post_to_slack.
    rewrite (comprehension_first_error esteira_line good bad rest e Hgood Hbad).
    destruct (good ++ bad :: rest)%list eqn:Hl; [|reflexivity].
    destruct good; discriminate Hl. }
  split; [exact Hsend|].
  rewrite (job_esteira_cases w tag q label fuel Hwin), Hfetch, Hsend.
  assert (Ht : t = fst (run_query w fuel q)) by now rewrite Hfetch.
  eexists. split; [reflexivity|].
  change (Stdout ?l :: ?x) with ([Stdout l] ++ x)%list. split.
  - rewrite !outcomes_app, Ht, run_query_outcomes. reflexivity.
  - rewrite !count_app, Ht, run_query_deliveries. reflexivity.
Qed.

Lemma bad_row_fails_without_delivery_witness :
  exists t',
    job_novo (tuesday_with (inr (sample_rows ++ [row_without_amount])%list)
                           (inr slack_accepts)) 1%nat
    = (t', Return tt)
    /\ outcomes t'
       = [Failed (TypeError "float() argument must be a string or a real number, not 'NoneType'")]
    /\ count is_delivery t' = 0%nat.
Proof.
  eapply (proj2 (bad_row_fails_without_delivery
            (tuesday_with (inr (sample_rows ++ [row_without_amount])%list) (inr slack_accepts))
            "NOVO" SQL_NOVO "Produto NOVO (Consignado Privado)" 1%nat
            _ sample_rows row_without_amount [] _ eq_refl eq_refl _ eq_refl)).
  Unshelve.
  repeat constructor. eexists. reflexivity.
Defined.

(** X7. An empty result is delivered as a message of its own: when the
    query returns no row and Slack accepts the post, the run reports
    Succeeded after exactly one post, whose text is the header followed by
    the "no records" line. *)
Theorem empty_result_is_delivered
    (w : world esteira_row) (tag : string) (q : sql) (label : string) (fuel : nat)
    (t : list event) (r : response)
    (Hwin : dentro_da_janela_execucao (now w) = true)
    (Hfetch : run_query w fuel q = (t, Return []))
    (Hpost : forall channel body, requests_post w channel body = inr r)
    (Hok : r_ok r = true)
    (Hjson : r_json_ok r = inr true) :
  let header :=
    "*Monitoramento de Esteiras — " ++ label ++ "*" ++ newline
    ++ "📅 " ++ strftime_dmY_HM (now_post w) ++ " (America/Fortaleza)"
    ++ newline ++ newline in
  exists t',
    job_esteira w tag q label fuel = (t', Return tt)
    /\ outcomes t' = [Succeeded]
    /\ filter is_delivery t'
       = [HttpPost "https://slack.com/api/chat.postMessage"
            [("channel", "#monitoramento-privado");
             ("text", header ++ "_Sem registros para o dia atual._");
             ("mrkdwn", "True")]].
Proof.
  intros header.
  assert (Hsend : post_to_slack w [] label
                  = ([HttpPost "https://slack.com/api/chat.postMessage"
                        [("channel", "#monitoramento-privado");
                         ("text", header ++ "_Sem registros para o dia atual._");
                         ("mrkdwn", "True")]], Return tt)).
  { unfold post_to_slack, post_message. cbn [bind ret emit app].
    rewrite Hpost. cbn [lift bind ret app]. rewrite Hok. cbn [negb].
    rewrite Hjson. reflexivity. }
  rewrite (job_esteira_cases w tag q label fuel Hwin), Hfetch, Hsend.
  assert (Ht : t = fst (run_query w fuel q)) by now rewrite Hfetch.
  eexists. split; [reflexivity|].
  change (Stdout ?l :: ?x) with ([Stdout l] ++ x)%list. split.
  - rewrite !outcomes_app, Ht, run_query_outcomes. reflexivity.
  - rewrite !filter_app.
    assert (Hnone : filter is_delivery (fst (run_query w fuel q)) = []).
    { pose proof (run_query_deliveries w fuel q) as Hc. unfold count in Hc.
      now apply length_zero_iff_nil in Hc. }
    rewrite Ht, Hnone. reflexivity.
Qed.

Lemma empty_result_is_delivered_witness :
  exists t',
    job_novo (tuesday_with (inr []) (inr slack_accepts)) 1%nat = (t', Return tt)
    /\ outcomes t' = [Succeeded]
    /\ List.length (filter is_delivery t') = 1%nat.
Proof.
  destruct (empty_result_is_delivered
              (tuesday_with (inr []) (inr slack_accepts))
              "NOVO" SQL_NOVO "Produto NOVO (Consignado Privado)" 1%nat
              _ slack_accepts eq_refl eq_refl (fun _ _ => eq_refl) eq_refl eq_refl)
    as (t' & Hrun & Hout & Hdel).
  exists t'. split; [exact Hrun|]. split; [exact Hout|]. now rewrite Hdel.
Defined.

Lemma swap_separators_app (a b : string) :
  swap_separators (a ++ b) = swap_separators a ++ swap_separators b.
Proof.
  induction a as [|c a IH]; [reflexivity|].
  cbn [append]. rewrite !swap_separators_cons. cbn [append]. now rewrite IH.
Qed.

Lemma swap_separators_digits (l : list ascii) :
  forallb is_digit l = true ->
  swap_separators (string_of_list_ascii l) = string_of_list_ascii l.
Proof.
  induction l as [|c l IH]; [reflexivity|].
  cbn [forallb string_of_list_ascii]. rewrite andb_true_iff. intros [Hc Hl].
  now rewrite swap_separators_cons, (swap_digit c Hc), (IH Hl).
Qed.

Lemma swap_separators_int (n : Z) : swap_separators (str_of_int n) = str_of_int n.
Proof.
  unfold str_of_int. destruct (n <? 0).
  - rewrite swap_separators_cons. change (swap_char "-") with "-"%char.
    now rewrite swap_separators_digits by apply digits_of_digits.
  - now rewrite swap_separators_digits by apply digits_of_digits.
Qed.

Lemma swap_char_not_X (c : ascii) : Ascii.eqb (swap_char c) "X" = false.
Proof.
  unfold swap_char.
  destruct (Ascii.eqb_spec c ","); [reflexivity|].
  destruct (Ascii.eqb_spec c "."); [reflexivity|].
  destruct (Ascii.eqb_spec c "X"); [reflexivity|].
  now apply Ascii.eqb_neq.
Qed.

Lemma swap_separators_no_X (s : string) : occurs "X" (swap_separators s) = false.
Proof.
  induction s as [|c s IH]; [reflexivity|].
  rewrite swap_separators_cons. cbn [occurs]. now rewrite swap_char_not_X, IH.
Qed.

(** X8. The three replacements of [post_to_slack] act on the whole line,
    not on the amount only: a line that is produced is the step name with
    its "," "." and "X" replaced, the count as it is, and the amount with
    its separators swapped; so no "X" is ever left in a line (each one in a
    step name is printed as "."). *)
Theorem esteira_line_swaps_step_name (r : esteira_row) (line : string)
    (Hline : esteira_line r = inr line) :
  exists n v,
    py_int (qtd r) = inr n
    /\ py_float (sum_gross r) = inr v
    /\ line = "• `" ++ swap_separators (str_of_text (last_steptype r)) ++ "` — "
              ++ str_of_int n ++ " contratos — R$ " ++ swap_separators (format_2f true v)
    /\ occurs "X" line = false.
Proof.
  unfold esteira_line in Hline.
  destruct (py_int (qtd r)) as [e|n]; [discriminate Hline|].
  destruct (py_float (sum_gross r)) as [e|v]; [discriminate Hline|].
  injection Hline as <-. exists n, v. split; [reflexivity|]. split; [reflexivity|].
  split; [|apply swap_separators_no_X].
  repeat (rewrite swap_separators_cons || rewrite swap_separators_app).
  rewrite swap_separators_int. reflexivity.
Qed.

Lemma esteira_line_swaps_step_name_witness :
  exists n v,
    py_int (PyInt 2) = inr n
    /\ py_float (PyFloat (S754_finite false 3 (-1))) = inr v
    /\ "• `E.PIRED,V2` — 2 contratos — R$ 1,50"
       = "• `" ++ swap_separators "EXPIRED.V2" ++ "` — "
         ++ str_of_int n ++ " contratos — R$ " ++ swap_separators (format_2f true v)
    /\ occurs "X" "• `E.PIRED,V2` — 2 contratos — R$ 1,50" = false.
Proof.
  apply (esteira_line_swaps_step_name
           {| last_steptype := Some "EXPIRED.V2"; qtd := PyInt 2;
              sum_gross := PyFloat (S754_finite false 3 (-1)) |}).
  reflexivity.
Defined.

Lemma swap_char_twice (c : ascii) :
  Ascii.eqb c "X" = false -> swap_char (swap_char c) = c.
Proof.
  intros HX. unfold swap_char at 2.
  destruct (Ascii.eqb_spec c ","); [subst; reflexivity|].
  destruct (Ascii.eqb_spec c "."); [subst; reflexivity|].
  rewrite HX. unfold swap_char.
  destruct (Ascii.eqb_spec c ","); [contradiction|].
  destruct (Ascii.eqb_spec c "."); [contradiction|].
  now rewrite HX.
Qed.

(** X9. The chain [.replace(",", "X").replace(".", ",").replace("X", ".")]
    exchanges "," and ".": on a text without "X" applying it twice gives
    the text back, and it never changes the length of a text. *)
Theorem swap_separators_round_trip (s : string) (HX : occurs "X" s = false) :
  swap_separators (swap_separators s) = s
  /\ String.length (swap_separators s) = String.length s.
Proof.
  induction s as [|c s IH]; [split; reflexivity|].
  cbn [occurs] in HX. apply orb_false_iff in HX. destruct HX as [Hc Hs].
  destruct (IH Hs) as [IH1 IH2].
  rewrite !swap_separators_cons. cbn [String.length].
  now rewrite (swap_char_twice c Hc), IH1, IH2.
Qed.

Lemma swap_separators_round_trip_witness :
  swap_separators (swap_separators "R$ 1,234,567.50") = "R$ 1,234,567.50"
  /\ String.length (swap_separators "R$ 1,234,567.50") = String.length "R$ 1,234,567.50".
Proof.
  apply (swap_separators_round_trip "R$ 1,234,567.50"). reflexivity.
Defined.

(* ------------------------------------------------------------------ *)
(** ** bot_resumo_diario.py: the blocks of the summary *)

(** X10. In the daily summary only the quantity can make a row fail: the
    block of a row raises exactly when [quantidade] is truthy and [int()]
    rejects it, and with that error; a NULL or unconvertible amount or
    percentage never fails the block, and a NULL or zero quantity is
    printed as 0. *)
Theorem resumo_block_fails_on_quantity_only (r : resumo_row) :
  (forall e,
      resumo_block r = inl e <->
      py_truthy (quantidade r) = true /\ py_int (quantidade r) = inl e)
  /\ (py_truthy (quantidade r) = false -> exists bloco, resumo_block r = inr bloco).
Proof.
  unfold resumo_block.
  destruct (py_truthy (quantidade r)); split.
  - intros e. destruct (py_int (quantidade r)) as [e'|n]; split.
    + intros [= ->]. auto.
    + intros [_ [= ->]]. reflexivity.
    + discriminate.
    + intros [_ H]. discriminate H.
  - discriminate.
  - intros e. split; [discriminate|]. intros [H _]. discriminate H.
  - intros _. eexists. reflexivity.
Qed.

Lemma resumo_block_fails_on_quantity_only_witness :
  exists bloco,
    resumo_block {| produto := Some "refin"; quantidade := PyNone; grossvalue := PyNone;
                    valor_de_deposito := PyFloat S754_nan; saldos_pagos := PyNone;
                    perc_aproveitamento_dia := PyNone; perc_aproveitamento_mes := PyNone |}
    = inr bloco.
Proof.
  apply (proj2 (resumo_block_fails_on_quantity_only
           {| produto := Some "refin"; quantidade := PyNone; grossvalue := PyNone;
              valor_de_deposito := PyFloat S754_nan; saldos_pagos := PyNone;
              perc_aproveitamento_dia := PyNone; perc_aproveitamento_mes := PyNone |})).
  reflexivity.
Defined.

Lemma format_2f_not_empty (grouping : bool) (v : pyfloat) :
  list_ascii_of_string (format_2f grouping v) <> [].
Proof.
  destruct v as [s|s| |s m e]; unfold format_2f;
    rewrite ?list_ascii_of_string_of_list_ascii.
  - destruct s; discriminate.
  - destruct s; discriminate.
  - discriminate.
  - intros H. apply (f_equal (@List.length ascii)) in H.
    rewrite !length_app in H. cbn [List.length] in H. lia.
Qed.

(** X11. A dash always means a missing value: [format_brl] and
    [format_pct] return "-" only for [None] and for a value [float()]
    rejects, never for a number. *)
Theorem dash_means_missing (value : pyvalue) :
  (format_brl value = "-" <->
     is_None value = true \/ exists e, py_float value = inl e)
  /\ (format_pct value = "-" <->
        is_None value = true \/ exists e, py_float value = inl e).
Proof.
  unfold format_brl, format_pct. split; split.
  - destruct (is_None value); [auto|].
    destruct (py_float value) as [e|v]; [eauto|].
    cbn [append]. rewrite swap_separators_cons. discriminate.
  - intros [H|[e H]]; rewrite H; [reflexivity|]. now destruct (is_None value).
  - destruct (is_None value); [auto|].
    destruct (py_float value) as [e|v]; [eauto|].
    intros H. exfalso. apply (f_equal list_ascii_of_string) in H.
    rewrite list_ascii_of_string_app in H.
    pose proof (format_2f_not_empty false v) as Hne.
    destruct (list_ascii_of_string (format_2f false v)) as [|c [|c' l]];
      [contradiction|discriminate H|discriminate H].
  - intros [H|[e H]]; rewrite H; [reflexivity|]. now destruct (is_None value).
Qed.

Lemma dash_means_missing_witness :
  is_None (PyObject (inl (ValueError "could not convert string to float: 'abc'"))
                    (inl (ValueError "invalid literal for int()")) true) = true
  \/ exists e, py_float (PyObject (inl (ValueError "could not convert string to float: 'abc'"))
                                  (inl (ValueError "invalid literal for int()")) true) = inl e.
Proof.
  apply (proj1 (proj1 (dash_means_missing
           (PyObject (inl (ValueError "could not convert string to float: 'abc'"))
                     (inl (ValueError "invalid literal for int()")) true)))).
  reflexivity.
Defined.

(* ------------------------------------------------------------------ *)
(** ** More on the gate and the fetch *)

Section GateEdge.
Context {row : Type} (w : world row).
Variables (host : string) (port interval : Z).

Lemma wait_loop_raises n : forall k fuel e,
  (forall j, (j < n)%nat -> exists msg, create_connection w (k + j) = Some (OSError msg)) ->
  create_connection w (k + n) = Some e -> is_OSError e = false ->
  (n < fuel)%nat ->
  wait_loop w host port interval fuel k
  = ((retries host port interval n ++ [SocketConnect host port 5 false])%list, Raise e).
Proof.
  induction n as [|n IH]; intros k fuel e Hfail Hexn He Hfuel;
    (destruct fuel as [|fuel]; [lia|]); cbn [wait_loop].
  - rewrite Nat.add_0_r in Hexn. now rewrite (wait_attempt_other w _ _ _ k e Hexn He).
  - destruct (Hfail 0%nat ltac:(lia)) as [msg Hk]. rewrite Nat.add_0_r in Hk.
    rewrite (wait_attempt_unreachable w _ _ _ _ _ Hk). unfold bind.
    rewrite (IH (S k) fuel e); [reflexivity| | |exact He|lia].
    + intros j Hj. destruct (Hfail (S j) ltac:(lia)) as [m Hm].
      exists m. now rewrite Nat.add_succ_comm.
    + now rewrite Nat.add_succ_comm.
Qed.

Lemma wait_loop_holds_nothing fuel : forall k h,
  held_after h (fst (wait_loop w host port interval fuel k)) = h.
Proof.
  induction fuel as [|fuel IH]; intros k h; [reflexivity|].
  cbn [wait_loop]. unfold wait_attempt.
  destruct (create_connection w k) as [e|].
  - simpl. destruct (is_OSError e); simpl; [|reflexivity].
    specialize (IH (S k) h).
    destruct (wait_loop w host port interval fuel (S k)) as [t r]. exact IH.
  - reflexivity.
Qed.
End GateEdge.

(** X12. The gate retries on [OSError] only: when, after [N] refused
    attempts, [socket.create_connection] raises another kind of exception,
    [wait_for_vpn_and_db] raises it at once, without a further sleep; and
    [run_query] then raises it too, before any step on the database. *)
Theorem gate_propagates_other_exceptions
    {row} (w : world row) (fuel : nat) (q : sql) (N : nat) (e : exn)
    (Hdown : forall k, (k < N)%nat -> exists msg, create_connection w k = Some (OSError msg))
    (Hexn : create_connection w N = Some e)
    (Hother : is_OSError e = false)
    (Hfuel : (N < fuel)%nat) :
  let host := cfg_host (DB_CFG w) in
  let port := cfg_port (DB_CFG w) in
  wait_for_vpn_and_db w fuel host port 900
  = ((Stdout (LogBoot host port)
      :: retries host port 900 N ++ [SocketConnect host port 5 false])%list, Raise e)
  /\ sleeps (fst (wait_for_vpn_and_db w fuel host port 900)) = repeat 900 N
  /\ snd (run_query w fuel q) = Raise e
  /\ count is_fetch (fst (run_query w fuel q)) = 0%nat.
Proof.
  intros host port.
  assert (Hgate : wait_for_vpn_and_db w fuel host port 900
                  = ((Stdout (LogBoot host port)
                      :: retries host port 900 N ++ [SocketConnect host port 5 false])%list,
                     Raise e)).
  { unfold wait_for_vpn_and_db.
    now rewrite (wait_loop_raises w host port 900 N 0 fuel e Hdown Hexn Hother Hfuel). }
  split; [exact Hgate|]. split; [|split].
  - rewrite Hgate. cbn [fst].
    change (Stdout ?l :: ?x) with ([Stdout l] ++ x)%list.
    rewrite !sleeps_app, sleeps_retries. simpl. now rewrite app_nil_r.
  - unfold run_query. fold host port. now rewrite Hgate.
  - unfold run_query. fold host port. rewrite Hgate. cbn [bind fst].
    change (Stdout ?l :: ?x) with ([Stdout l] ++ x)%list.
    rewrite !count_app.
    rewrite (count_zero_of_forallb is_gate is_fetch (retries _ _ _ _)).
    + reflexivity.
    + intros ev; destruct ev as [[]| | | | | | | | | | | | |]; simpl; congruence.
    + clear. induction N; simpl; auto.
Qed.

Lemma gate_propagates_other_exceptions_witness :
  snd (run_query overflow_world 3 SQL_NOVO) = Raise (OverflowError "port must be 0-65535")
  /\ sleeps (fst (wait_for_vpn_and_db overflow_world 3 "10.0.0.7" 5432 900)) = [900; 900].
Proof.
  assert (Hdown : forall k, (k < 2)%nat ->
            exists msg, create_connection overflow_world k = Some (OSError msg)).
  { intros [|[|k]] Hk; [eexists; reflexivity | eexists; reflexivity | lia]. }
  destruct (gate_propagates_other_exceptions overflow_world 3 SQL_NOVO 2
              (OverflowError "port must be 0-65535") Hdown eq_refl eq_refl ltac:(lia))
    as (_ & Hsleeps & Hraise & _).
  split; [exact Hraise | exact Hsleeps].
Defined.

(** X13. Whatever the world does, [run_query] leaves neither the socket of
    the gate open nor the connection of [with engine.begin()] checked out:
    at the end of every call (also one still waiting at the gate) nothing
    is held, or the engine alone, with whatever it pools; a call that
    returns holds nothing and returns exactly the rows [pd.read_sql] gave. *)
Theorem run_query_closes_socket_and_connection
    {row} (w : world row) (fuel : nat) (q : sql) :
  (held_after [] (fst (run_query w fuel q)) = []
   \/ held_after [] (fst (run_query w fuel q)) = [an_engine])
  /\ (forall df, snd (run_query w fuel q) = Return df ->
        held_after [] (fst (run_query w fuel q)) = [] /\ read_sql w q = inr df)
  /\ (snd (run_query w fuel q) = Blocked ->
        held_after [] (fst (run_query w fuel q)) = []).
Proof.
  unfold run_query, wait_for_vpn_and_db.
  pose proof (wait_loop_holds_nothing w (cfg_host (DB_CFG w)) (cfg_port (DB_CFG w)) 900
                fuel 0) as Hgate.
  destruct (wait_loop w (cfg_host (DB_CFG w)) (cfg_port (DB_CFG w)) 900 fuel 0)
    as [t0 [[]|e0|]]; cbn [fst] in Hgate.
  - destruct (create_engine w) as [e1|].
    + cbn [bind print emit raise fst snd app held_after]. rewrite app_nil_r, Hgate.
      split; [now left|]. split; discriminate.
    + destruct (engine_begin w) as [e2|].
      * cbn [bind print emit raise fst snd app held_after].
        rewrite held_after_app, Hgate. cbn.
        split; [now right|]. split; discriminate.
      * destruct (read_sql w q) as [e3|df];
          cbn [bind print emit raise ret lift with_exit fst snd app held_after];
          rewrite held_after_app, Hgate; cbn.
        -- split; [now right|]. split; discriminate.
        -- split; [now left|]. split; [|discriminate].
           intros df' [= <-]. auto.
  - cbn [bind print emit fst snd app held_after]. rewrite Hgate.
    split; [now left|]. split; discriminate.
  - cbn [bind print emit fst snd app held_after]. rewrite Hgate.
    split; [now left|]. split; [discriminate|reflexivity].
Qed.

Lemma run_query_closes_socket_and_connection_witness :
  held_after [] (fst (run_query (tuesday_with (inr sample_rows) (inr slack_accepts)) 1 SQL_NOVO)) = []
  /\ read_sql (tuesday_with (inr sample_rows) (inr slack_accepts)) SQL_NOVO = inr sample_rows.
Proof.
  apply (proj1 (proj2 (run_query_closes_socket_and_connection
           (tuesday_with (inr sample_rows) (inr slack_accepts)) 1 SQL_NOVO))).
  reflexivity.
Defined.

(* ------------------------------------------------------------------ *)
(** ** More on the jobs *)

Lemma post_message_posts_once {row} (w : world row) channel body :
  count is_delivery (fst (post_message w channel body)) = 1%nat.
Proof.
  unfold post_message. cbn [bind emit fst].
  destruct (requests_post w channel body) as [e|r]; [reflexivity|].
  cbn [lift bind ret fst app]. destruct (r_ok r); cbn [negb]; [|reflexivity].
  destruct (r_json_ok r) as [e|[|]]; reflexivity.
Qed.

Lemma post_to_slack_posts (w : world esteira_row) df label :
  (count is_delivery (fst (post_to_slack w df label)) <= 1)%nat
  /\ (snd (post_to_slack w df label) = Return tt ->
      count is_delivery (fst (post_to_slack w df label)) = 1%nat).
Proof.
  unfold post_to_slack.
  match goal with |- context [bind ?m _] => destruct m as [t0 [text|e|]] eqn:Htext end.
  - assert (t0 = []) as ->.
    { destruct df as [|r0 df]; [now injection Htext as <- _|].
      remember (comprehension esteira_line (r0 :: df)) as c.
      destruct c; simpl in Htext; [discriminate|now injection Htext as <- _]. }
    pose proof (post_message_posts_once w SLACK_CHANNEL_ESTEIRAS text) as Hone.
    unfold bind. destruct (post_message w SLACK_CHANNEL_ESTEIRAS text) as [t r].
    cbn [fst snd app] in *. rewrite Hone. auto.
  - assert (t0 = []) as ->.
    { destruct df as [|r0 df]; [discriminate Htext|].
      remember (comprehension esteira_line (r0 :: df)) as c.
      destruct c; simpl in Htext; [now injection Htext as <- _|discriminate]. }
    cbn. split; [lia|discriminate].
  - exfalso. destruct df as [|r0 df]; [discriminate Htext|].
    remember (comprehension esteira_line (r0 :: df)) as c.
    destruct c; simpl in Htext; discriminate.
Qed.

Lemma send_resumo_posts (w : world resumo_row) df :
  (count is_delivery (fst (send_resumo_to_slack w df)) <= 1)%nat
  /\ (snd (send_resumo_to_slack w df) = Return tt ->
      count is_delivery (fst (send_resumo_to_slack w df)) = 1%nat).
Proof.
  unfold send_resumo_to_slack.
  match goal with |- context [bind ?m _] => destruct m as [t0 [text|e|]] eqn:Htext end.
  - assert (t0 = []) as ->.
    { destruct df as [|r0 df]; [now injection Htext as <- _|].
      remember (comprehension resumo_block (r0 :: df)) as c.
      destruct c; simpl in Htext; [discriminate|now injection Htext as <- _]. }
    pose proof (post_message_posts_once w SLACK_CHANNEL text) as Hone.
    unfold bind. destruct (post_message w SLACK_CHANNEL text) as [t r].
    cbn [fst snd app] in *. rewrite Hone. auto.
  - assert (t0 = []) as ->.
    { destruct df as [|r0 df]; [discriminate Htext|].
      remember (comprehension resumo_block (r0 :: df)) as c.
      destruct c; simpl in Htext; [now injection Htext as <- _|discriminate]. }
    cbn. split; [lia|discriminate].
  - exfalso. destruct df as [|r0 df]; [discriminate Htext|].
    remember (comprehension resumo_block (r0 :: df)) as c.
    destruct c; simpl in Htext; discriminate.
Qed.

(** A started [try] block posts at most once, and reports Succeeded only
    after a post. *)
Lemma started_guarded_posts {row} (w : world row) (fuel : nat) (q : sql)
    (deliver : list row -> M unit) (l done : log_line) (err : exn -> log_line) :
  (forall df, outcomes (fst (deliver df)) = []) ->
  (forall df, (count is_delivery (fst (deliver df)) <= 1)%nat
              /\ (snd (deliver df) = Return tt ->
                  count is_delivery (fst (deliver df)) = 1%nat)) ->
  outcome_of_event (Stdout l) = None ->
  outcome_of_event (Stdout done) = Some Succeeded ->
  (forall e, outcome_of_event (Stdout (err e)) = Some (Failed e)) ->
  let run := (print l ;; guarded (run_query w fuel q) deliver done err) in
  (count is_delivery (fst run) <= 1)%nat
  /\ (outcomes (fst run) = [Succeeded] -> count is_delivery (fst run) = 1%nat).
Proof.
  intros Hsilent Hposts Hl Hdone Herr run. unfold run.
  rewrite started_job, guarded_cases. cbn [fst].
  pose proof (run_query_outcomes w fuel q) as Hfo.
  pose proof (run_query_deliveries w fuel q) as Hfd.
  assert (Hout : forall t, outcomes (Stdout l :: t) = outcomes t).
  { intros t. cbn [outcomes]. now rewrite Hl. }
  assert (Hcnt : forall t, count is_delivery (Stdout l :: t) = count is_delivery t).
  { reflexivity. }
  destruct (run_query w fuel q) as [t [df|e|]]; cbn [fst] in *.
  - destruct (Hposts df) as [Hle Hone]. pose proof (Hsilent df) as Hs.
    destruct (deliver df) as [t2 [[]|e|]]; cbn [fst snd] in *;
      rewrite Hout, Hcnt, ?outcomes_app, ?count_app, Hfo, Hfd, Hs; cbn [app].
    + cbn [outcomes]. rewrite Hdone. unfold count at 2. simpl.
      rewrite (Hone eq_refl). split; [lia|reflexivity].
    + cbn [outcomes]. rewrite Herr. unfold count at 2. simpl.
      split; [lia|discriminate].
    + split; [lia|discriminate].
  - rewrite Hout, Hcnt, outcomes_app, count_app, Hfo, Hfd. cbn [app outcomes].
    rewrite Herr. split; [unfold count; simpl; lia|discriminate].
  - rewrite Hout, Hcnt, Hfo, Hfd. split; [lia|discriminate].
Qed.

(** X14. A run of a scheduled job posts to Slack at most once, however it
    ends, and it reports Succeeded only after exactly one post. *)
Theorem job_posts_at_most_once :
  (forall (w : world esteira_row) tag q label fuel,
      let run := job_esteira w tag q label fuel in
      (count is_delivery (fst run) <= 1)%nat
      /\ (outcomes (fst run) = [Succeeded] -> count is_delivery (fst run) = 1%nat))
  /\ (forall (w : world resumo_row) fuel,
         let run := job_resumo w fuel in
         (count is_delivery (fst run) <= 1)%nat
         /\ (outcomes (fst run) = [Succeeded] -> count is_delivery (fst run) = 1%nat)).
Proof.
  split.
  - intros w tag q label fuel run. unfold run.
    destruct (dentro_da_janela_execucao (now w)) eqn:Hwin.
    + rewrite (job_esteira_in_window w tag q label fuel Hwin).
      apply started_guarded_posts; try reflexivity.
      * intros df. apply delivery_log_silent, post_to_slack_emits.
      * intros df. apply post_to_slack_posts.
    + unfold job_esteira. rewrite Hwin. cbn. split; [lia|discriminate].
  - intros w fuel run. unfold run. rewrite job_resumo_unfold.
    apply started_guarded_posts; try reflexivity.
    + intros df. apply delivery_log_silent, send_resumo_emits.
    + intros df. apply send_resumo_posts.
Qed.

Lemma job_posts_at_most_once_witness :
  count is_delivery (fst (job_novo tuesday_world 3%nat)) = 1%nat.
Proof.
  apply (proj2 (proj1 job_posts_at_most_once tuesday_world
                  "NOVO" SQL_NOVO "Produto NOVO (Consignado Privado)" 3%nat)).
  reflexivity.
Defined.

Lemma job_esteira_contained (w : world esteira_row) tag q label fuel :
  (forall e, snd (job_esteira w tag q label fuel) <> Raise e)
  /\ (snd (job_esteira w tag q label fuel) = Return tt ->
      exists o, outcomes (fst (job_esteira w tag q label fuel)) = [o]).
Proof.
  destruct (dentro_da_janela_execucao (now w)) eqn:Hwin.
  - rewrite (job_esteira_in_window w tag q label fuel Hwin).
    destruct (started_guarded_contains w fuel q (fun df => post_to_slack w df label)
                (LogIniciando (now w) tag) (LogEnviado (now w) tag) (LogErro (now w) tag))
      as (H1 & H2 & _); try reflexivity; auto.
    + intros df. apply delivery_log_silent, post_to_slack_emits.
    + intros df. apply post_to_slack_not_blocked.
  - unfold job_esteira. rewrite Hwin. cbn. split; [discriminate|eauto].
Qed.

(** X15. The three calls at start-up run one after the other and none can
    stop the next by failing: the sequence never raises; it returns exactly
    when each of the three runs returns, and then reports three outcomes,
    one per job; but while [job_novo] waits for the database the two
    other jobs are not started. *)
Theorem startup_runs_the_three_jobs (w1 w2 w3 : world esteira_row) (fuel : nat) :
  (forall e, snd (startup w1 w2 w3 fuel) <> Raise e)
  /\ (snd (startup w1 w2 w3 fuel) = Return tt <->
        snd (job_novo w1 fuel) = Return tt
        /\ snd (job_refin w2 fuel) = Return tt
        /\ snd (job_portability w3 fuel) = Return tt)
  /\ (snd (startup w1 w2 w3 fuel) = Return tt ->
        exists o1 o2 o3, outcomes (fst (startup w1 w2 w3 fuel)) = [o1; o2; o3])
  /\ (snd (job_novo w1 fuel) = Blocked ->
        startup w1 w2 w3 fuel = (fst (job_novo w1 fuel), Blocked)).
Proof.
  unfold startup, job_novo, job_refin, job_portability.
  destruct (job_esteira_contained w1 "NOVO" SQL_NOVO
              "Produto NOVO (Consignado Privado)" fuel) as [N1 O1].
  destruct (job_esteira_contained w2 "REFIN" SQL_REFIN
              "Produto REFIN (Consignado Privado)" fuel) as [N2 O2].
  destruct (job_esteira_contained w3 "PORTABILITY" SQL_PORTABILITY
              "Produto PORTABILITY (Consignado Privado)" fuel) as [N3 O3].
  destruct (job_esteira w1 "NOVO" SQL_NOVO "Produto NOVO (Consignado Privado)" fuel)
    as [t1 [[]|e1|]]; cbn [fst snd bind] in *;
    [|now destruct (N1 e1)|].
  2:{ split; [discriminate|]. split; [split; [discriminate|intros [H _]; discriminate H]|].
      split; [discriminate|reflexivity]. }
  destruct (job_esteira w2 "REFIN" SQL_REFIN "Produto REFIN (Consignado Privado)" fuel)
    as [t2 [[]|e2|]]; cbn [fst snd bind] in *;
    [|now destruct (N2 e2)|].
  2:{ split; [discriminate|].
      split; [split; [discriminate|intros (_ & H & _); discriminate H]|].
      split; discriminate. }
  destruct (job_esteira w3 "PORTABILITY" SQL_PORTABILITY
              "Produto PORTABILITY (Consignado Privado)" fuel)
    as [t3 [[]|e3|]]; cbn [fst snd bind] in *;
    [|now destruct (N3 e3)|].
  2:{ split; [discriminate|].
      split; [split; [discriminate|intros (_ & _ & H); discriminate H]|].
      split; discriminate. }
  split; [discriminate|]. split; [split; auto|]. split; [|discriminate].
  intros _. destruct (O1 eq_refl) as [o1 H1]. destruct (O2 eq_refl) as [o2 H2].
  destruct (O3 eq_refl) as [o3 H3].
  exists o1, o2, o3. now rewrite !outcomes_app, H1, H2, H3.
Qed.

Lemma startup_runs_the_three_jobs_witness :
  exists o1 o2 o3,
    outcomes (fst (startup (tuesday_with (inl (OtherException "relation does not exist"))
                                         (inr slack_accepts))
                           sunday_world tuesday_world 3))
    = [o1; o2; o3].
Proof.
  apply (proj1 (proj2 (proj2 (startup_runs_the_three_jobs
           (tuesday_with (inl (OtherException "relation does not exist")) (inr slack_accepts))
           sunday_world tuesday_world 3)))).
  reflexivity.
Defined.

Lemma post_message_channel {row} (w : world row) channel body :
  emits_only (posts_to channel) (post_message w channel body).
Proof.
  unfold post_message.
  apply emits_only_bind.
  - apply emits_only_emit. cbn. now rewrite String.eqb_refl.
  - intros _. apply emits_only_bind; [apply emits_only_lift|intros r].
    destruct (negb (r_ok r)); [now apply emits_only_emit|].
    apply emits_only_bind; [apply emits_only_lift|intros j].
    destruct (negb j); [now apply emits_only_emit|apply emits_only_ret].
Qed.

Lemma run_query_channel {row} (w : world row) fuel q channel :
  emits_only (posts_to channel) (run_query w fuel q).
Proof.
  apply emits_only_weaken with (p := is_gate_or_fetch); [|apply run_query_emits].
  intros ev; destruct ev as [[]| | | | | | | | | | | | |]; cbv; intros; congruence.
Qed.

(** X16. A job writes to its own channel only: every HTTP post in a run of
    [job_novo], [job_refin] or [job_portability] is a chat.postMessage
    addressed to "#monitoramento-privado", and every one in a run of
    [job_resumo] is addressed to "#geral-ops-privado". *)
Theorem jobs_post_to_their_channel :
  (forall (w : world esteira_row) tag q label fuel,
      forallb (posts_to "#monitoramento-privado") (fst (job_esteira w tag q label fuel)) = true)
  /\ (forall (w : world resumo_row) fuel,
         forallb (posts_to "#geral-ops-privado") (fst (job_resumo w fuel)) = true).
Proof.
  split.
  - intros w tag q label fuel. change (emits_only (posts_to SLACK_CHANNEL_ESTEIRAS)
                                         (job_esteira w tag q label fuel)).
    unfold job_esteira.
    destruct (negb (dentro_da_janela_execucao (now w))); [now apply emits_only_emit|].
    apply emits_only_try; [|intros e; now apply emits_only_emit].
    apply emits_only_bind; [now apply emits_only_emit|intros _].
    apply emits_only_bind; [apply run_query_channel|intros df].
    apply emits_only_bind; [|intros _; now apply emits_only_emit].
    unfold post_to_slack. apply emits_only_bind; [|intros; apply post_message_channel].
    destruct df; [apply emits_only_ret|].
    apply emits_only_bind; [apply emits_only_lift|intros; apply emits_only_ret].
  - intros w fuel. change (emits_only (posts_to SLACK_CHANNEL) (job_resumo w fuel)).
    unfold job_resumo.
    apply emits_only_bind; [now apply emits_only_emit|intros _].
    apply emits_only_try; [|intros e; now apply emits_only_emit].
    apply emits_only_bind; [apply run_query_channel|intros df].
    apply emits_only_bind; [|intros _; now apply emits_only_emit].
    unfold send_resumo_to_slack. apply emits_only_bind; [|intros; apply post_message_channel].
    destruct df; [apply emits_only_ret|].
    apply emits_only_bind; [apply emits_only_lift|intros; apply emits_only_ret].
Qed.

Lemma wait_loop_sleeps {row} (w : world row) host port interval fuel : forall k,
  forallb (Z.eqb interval) (sleeps (fst (wait_loop w host port interval fuel k))) = true.
Proof.
  induction fuel as [|fuel IH]; intros k; [reflexivity|].
  cbn [wait_loop]. unfold wait_attempt.
  destruct (create_connection w k) as [e|]; [|reflexivity].
  simpl. destruct (is_OSError e); simpl; [|reflexivity].
  specialize (IH (S k)).
  destruct (wait_loop w host port interval fuel (S k)) as [t r]. simpl in *.
  now rewrite Z.eqb_refl, IH.
Qed.

(** X17. The jobs always poll the database every 900 seconds:
    [run_query] calls the gate without an interval, so every sleep of a
    call, and of a run of a job, lasts 900 s (the 15 minutes of the
    log line), and a run sleeps nowhere else. *)
Theorem jobs_sleep_900_seconds :
  (forall row (w : world row) fuel q,
      forallb (Z.eqb 900) (sleeps (fst (run_query w fuel q))) = true)
  /\ (forall (w : world esteira_row) tag q label fuel,
         forallb (Z.eqb 900) (sleeps (fst (job_esteira w tag q label fuel))) = true)
  /\ (forall (w : world resumo_row) fuel,
         forallb (Z.eqb 900) (sleeps (fst (job_resumo w fuel))) = true).
Proof.
  assert (Hq : forall row (w : world row) fuel q,
             forallb (Z.eqb 900) (sleeps (fst (run_query w fuel q))) = true).
  { intros row w fuel q. unfold run_query, wait_for_vpn_and_db.
    pose proof (wait_loop_sleeps w (cfg_host (DB_CFG w)) (cfg_port (DB_CFG w)) 900 fuel 0)
      as Hs.
    destruct (wait_loop w (cfg_host (DB_CFG w)) (cfg_port (DB_CFG w)) 900 fuel 0)
      as [t0 [[]|e0|]]; cbn [fst] in Hs;
      [|cbn [bind print emit fst app sleeps]; exact Hs
       |cbn [bind print emit fst app sleeps]; exact Hs].
    destruct (create_engine w) as [e1|]; [|destruct (engine_begin w) as [e2|];
                                           [|destruct (read_sql w q) as [e3|df]]];
      cbn [bind print emit raise ret lift with_exit fst snd app sleeps];
      rewrite ?app_nil_r, ?sleeps_app, ?forallb_app, ?Hs; reflexivity. }
  assert (Hsilent : forall t, forallb is_delivery_or_log t = true -> sleeps t = []).
  { induction t as [|ev t IH]; [reflexivity|]. cbn [forallb].
    rewrite andb_true_iff. intros [Hev Ht].
    destruct ev as [[]| | | | | | | | | | | | |]; try discriminate Hev; cbn; auto. }
  split; [exact Hq|]. split.
  - intros w tag q label fuel.
    destruct (dentro_da_janela_execucao (now w)) eqn:Hwin.
    + rewrite (job_esteira_cases w tag q label fuel Hwin).
      pose proof (Hq _ w fuel q) as Hs.
      destruct (run_query w fuel q) as [t [df|e|]]; cbn [fst] in *.
      * pose proof (Hsilent _ (post_to_slack_emits w df label)) as Hd.
        destruct (post_to_slack w df label) as [t2 [[]|e|]]; cbn [fst] in *;
          cbn [sleeps]; rewrite !sleeps_app, Hd, forallb_app, Hs; reflexivity.
      * cbn [sleeps]. rewrite sleeps_app, forallb_app, Hs. reflexivity.
      * exact Hs.
    + unfold job_esteira. rewrite Hwin. reflexivity.
  - intros w fuel. rewrite job_resumo_unfold, started_job, guarded_cases.
    pose proof (Hq _ w fuel SQL_RESUMO) as Hs.
    destruct (run_query w fuel SQL_RESUMO) as [t [df|e|]]; cbn [fst] in *.
    + pose proof (Hsilent _ (send_resumo_emits w df)) as Hd.
      destruct (send_resumo_to_slack w df) as [t2 [[]|e|]]; cbn [fst] in *;
        cbn [sleeps]; rewrite !sleeps_app, Hd, forallb_app, Hs; reflexivity.
    + cbn [sleeps]. rewrite sleeps_app, forallb_app, Hs. reflexivity.
    + exact Hs.
Qed.

(** X18. Both Postgres bots print an amount in the same way: in a line of
    [post_to_slack] the text after "contratos — " is what [format_brl]
    returns for the same cell. *)
Theorem esteira_amount_is_format_brl (r : esteira_row) (line : string)
    (Hline : esteira_line r = inr line) :
  exists n,
    py_int (qtd r) = inr n
    /\ line = "• `" ++ swap_separators (str_of_text (last_steptype r)) ++ "` — "
              ++ str_of_int n ++ " contratos — " ++ format_brl (sum_gross r).
Proof.
  unfold esteira_line in Hline.
  destruct (py_int (qtd r)) as [e|n]; [discriminate Hline|].
  destruct (py_float (sum_gross r)) as [e|v] eqn:Hv; [discriminate Hline|].
  injection Hline as <-. exists n. split; [reflexivity|].
  assert (Hnone : is_None (sum_gross r) = false).
  { destruct (sum_gross r); try reflexivity. discriminate Hv. }
  unfold format_brl. rewrite Hnone, Hv.
  repeat (rewrite swap_separators_cons || rewrite swap_separators_app).
  rewrite swap_separators_int. reflexivity.
Qed.

Lemma esteira_amount_is_format_brl_witness :
  exists n,
    py_int (PyInt 12) = inr n
    /\ "• `PAID` — 12 contratos — R$ 1.234.567,50"
       = "• `" ++ swap_separators "PAID" ++ "` — " ++ str_of_int n ++ " contratos — "
         ++ format_brl (PyFloat (S754_finite false 2469135 (-1))).
Proof.
  apply (esteira_amount_is_format_brl
           {| last_steptype := Some "PAID"; qtd := PyInt 12;
              sum_gross := PyFloat (S754_finite false 2469135 (-1)) |}).
  reflexivity.
Defined.
